(** * finbertSagemaker: the provisioning, deployment and invocation scripts

    A shallow embedding of [finbert.py] (role provisioning, model deployment,
    in-deployment endpoint test, [main]) and of [finbert-invoke.py] (the
    standalone invocation script), with the properties of the specification
    proved about it.

    The scripts are sequences of calls to a cloud provider (IAM, SageMaker),
    of [print]s and of one [time.sleep].  The embedding keeps that shape:

    - the provider is an explicit state, [cloud]: the IAM role store, and the
      outcomes of the requests the scripts cannot decide themselves (request
      failures, the deployment's result, the endpoint's responses);
    - a Python statement is a computation in the monad [M]: it reads and
      updates the [cloud], returns a value or raises an exception, and emits
      the [event]s it causes (provider requests, printed lines, sleeps) in
      the order they happen;
    - [try]/[except] is [try_except], with the filters of its clauses in
      their order; a [for] loop is [for_each], or a [Fixpoint] on the list
      when it carries a variable along.

    Not modelled: the construction of the clients ([boto3.client],
    [sagemaker.Session], [HuggingFacePredictor]), which is taken to succeed;
    exceptions that are not subclasses of [Exception]; the characters a
    formatted value is printed with (a printed line keeps its values as
    values).  A Python [str] is a Rocq [string], its length counted in the
    characters of that string. *)

From Stdlib Require Import PrimFloat ZArith Ascii.
From stdpp Require Import gmap strings list.

Open Scope string_scope.
Open Scope list_scope.
#[local] Set Warnings "-register-all,-inexact-float".

(* ===================================================================== *)
(** ** Python values and exceptions *)
(* ===================================================================== *)

(** What [json.loads] builds, which is what [predictor.predict] returns
    (the predictor deserialises the response body).  An object is kept as an
    association list: Python dictionaries are ordered. *)
Inductive json : Type :=
| JNull
| JBool (b : bool)
| JInt (z : Z)
| JFloat (x : float)
| JStr (s : string)
| JList (l : list json)
| JDict (d : list (string * json)).

(** The exceptions these scripts can meet, all subclasses of [Exception].
    boto3 derives an exception class from the error code of a failed request:
    [iam.exceptions.EntityAlreadyExistsException] is the class of the code
    [EntityAlreadyExists], and so on. *)
Inductive exn : Type :=
| ClientError (code : string)
| AttributeError
| TypeError
| ValueError
| OverflowError
| IndexError
| KeyError.

Definition EntityAlreadyExistsException : exn := ClientError "EntityAlreadyExists".
Definition NoSuchEntityException : exn := ClientError "NoSuchEntity".
Definition LimitExceededException : exn := ClientError "LimitExceeded".

Definition has_code (c : string) (e : exn) : bool :=
  match e with
  | ClientError c' => bool_decide (c' = c)
  | _ => false
  end.

(** [except iam.exceptions.EntityAlreadyExistsException] *)
Definition is_EntityAlreadyExists : exn -> bool := has_code "EntityAlreadyExists".
(** [except iam.exceptions.LimitExceededException] *)
Definition is_LimitExceeded : exn -> bool := has_code "LimitExceeded".

Inductive outcome (A : Type) : Type :=
| Ok (a : A)
| Raise (e : exn).
Arguments Ok {A} a.
Arguments Raise {A} e.

Definition is_Ok {A} (r : outcome A) : bool :=
  match r with Ok _ => true | Raise _ => false end.

(** *** Dictionaries *)

(** [k in d] and [d[k]] *)
Fixpoint dict_lookup (k : string) (d : list (string * json)) : option json :=
  match d with
  | [] => None
  | (k', v) :: d' => if bool_decide (k' = k) then Some v else dict_lookup k d'
  end.

(** [d[k] = v]: an existing key keeps its place, a new key goes last. *)
Fixpoint dict_store (k : string) (v : json) (d : list (string * json))
  : list (string * json) :=
  match d with
  | [] => [(k, v)]
  | (k', v') :: d' =>
      if bool_decide (k' = k) then (k, v) :: d' else (k', v') :: dict_store k v d'
  end.

(** *** The operations the scripts apply to a response *)

(** [isinstance(v, list) and len(v) > 0] *)
Definition is_nonempty_list (v : json) : bool :=
  match v with
  | JList (_ :: _) => true
  | _ => false
  end.

(** [v[i]] for a non-negative integer [i].  A list or a string is indexed
    (IndexError out of range), an object has no integer key (its keys are
    strings: KeyError), nothing else is subscriptable (TypeError). *)
Definition py_index (v : json) (i : nat) : outcome json :=
  match v with
  | JList l => match l !! i with Some x => Ok x | None => Raise IndexError end
  | JStr s =>
      match String.get i s with
      | Some c => Ok (JStr (String c EmptyString))
      | None => Raise IndexError
      end
  | JDict _ => Raise KeyError
  | _ => Raise TypeError
  end.

(** [v[k]] for a string [k] *)
Definition py_getitem (v : json) (k : string) : outcome json :=
  match v with
  | JDict d => match dict_lookup k d with Some x => Ok x | None => Raise KeyError end
  | _ => Raise TypeError
  end.

(** [v[k] = x] for a string [k]: the object after the assignment.  Only a
    dictionary accepts it. *)
Definition py_setitem (v : json) (k : string) (x : json) : outcome json :=
  match v with
  | JDict d => Ok (JDict (dict_store k x d))
  | _ => Raise TypeError
  end.

(** [v.get(k, default)]: only a dictionary has the method. *)
Definition py_get (v : json) (k : string) (default : json) : outcome json :=
  match v with
  | JDict d => Ok (match dict_lookup k d with Some x => x | None => default end)
  | _ => Raise AttributeError
  end.

(** Whether [format(v, ".3f")] is defined: for [float], for [bool] (a
    subclass of [int]) and for an [int] that converts to a [float], that is,
    one that does not round to 2^1024 or beyond (OverflowError).  A string
    refuses the format code (ValueError), the other types refuse any format
    string (TypeError). *)
Definition format_3f_check (v : json) : outcome json :=
  match v with
  | JFloat _ | JBool _ => Ok v
  | JInt z =>
      if (Z.abs z <? 2 ^ 1024 - 2 ^ 970)%Z then Ok v else Raise OverflowError
  | JStr _ => Raise ValueError
  | JNull | JList _ | JDict _ => Raise TypeError
  end.

(* ===================================================================== *)
(** ** Printed lines and events *)
(* ===================================================================== *)

(** An f-string is its literal pieces and its formatted values.  The values
    are kept as values: [Val v] stands for [{v}], [Fixed3 v] for [{v:.3f}],
    [ExnMsg e] for [{e}] with [e] an exception. *)
Inductive frag : Type :=
| Str (s : string)
| Val (v : json)
| Fixed3 (v : json)
| ExnMsg (e : exn).

Definition line : Type := list frag.

Definition nl : string := String (ascii_of_nat 10) EmptyString.
Definition dq : string := String (ascii_of_nat 34) EmptyString.

(** ["s" * n] *)
Fixpoint str_mul (s : string) (n : nat) : string :=
  match n with
  | O => ""
  | S n' => s +:+ str_mul s n'
  end.

(** The objects of the SageMaker SDK the scripts handle. *)
Module sagemaker.

(** The description of a model, as [HuggingFaceModel(...)] holds it. *)
Record HuggingFaceModel : Type := {
  transformers_version : string;
  pytorch_version : string;
  py_version : string;
  env : list (string * string);
  role : string;
  is_compiled_model : bool
}.

(** The arguments of [huggingface_model.deploy(...)]. *)
Record deploy_request : Type := {
  model : HuggingFaceModel;
  initial_instance_count : Z;
  instance_type : string;
  req_endpoint_name : option string
}.

(** What a [HuggingFacePredictor] is to these scripts: the name of its
    endpoint. *)
Record HuggingFacePredictor : Type := { endpoint_name : string }.

End sagemaker.
Import sagemaker.

Inductive event : Type :=
| Print (l : line)
| Sleep (seconds : Z)
| IamCreateRole (RoleName : string) (AssumeRolePolicyDocument : json)
    (Description Path : string)
| IamGetRole (RoleName : string)
| IamAttachRolePolicy (RoleName PolicyArn : string)
| SmDeploy (req : deploy_request)
| SmInvoke (endpoint : string) (payload : json).

(* ===================================================================== *)
(** ** The provider *)
(* ===================================================================== *)

(** A role of IAM: its identifier (ARN), its trust policy and the managed
    policies attached to it. *)
Record iam_role : Type := {
  Arn : string;
  trust : json;
  attached : list string
}.

(** The provider's state together with everything it decides on its own.
    [iam_fault n] is the error code with which the [n]-th IAM request (from
    0) fails before it is served, if it does: throttling, missing
    permissions, expired credentials.  [deploy_outcome n req] is how the
    [n]-th deployment ends: the name the provider generated for the
    endpoint, or an error.  [endpoint_reply n name payload] is the answer to
    the [n]-th invocation. *)
Record cloud : Type := {
  account : string;
  roles : gmap string iam_role;
  policy_quota : nat;
  iam_requests : nat;
  iam_fault : nat -> option string;
  deployments : nat;
  deploy_outcome : nat -> deploy_request -> outcome string;
  endpoints : list string;
  invocations : nat;
  endpoint_reply : nat -> string -> json -> outcome json
}.

Definition set_roles (c : cloud) (r : gmap string iam_role) : cloud :=
  {| account := account c; roles := r; policy_quota := policy_quota c;
     iam_requests := iam_requests c; iam_fault := iam_fault c;
     deployments := deployments c; deploy_outcome := deploy_outcome c;
     endpoints := endpoints c;
     invocations := invocations c; endpoint_reply := endpoint_reply c |}.

Definition tick_iam (c : cloud) : cloud :=
  {| account := account c; roles := roles c; policy_quota := policy_quota c;
     iam_requests := S (iam_requests c); iam_fault := iam_fault c;
     deployments := deployments c; deploy_outcome := deploy_outcome c;
     endpoints := endpoints c;
     invocations := invocations c; endpoint_reply := endpoint_reply c |}.

Definition tick_deploy (c : cloud) (new : list string) : cloud :=
  {| account := account c; roles := roles c; policy_quota := policy_quota c;
     iam_requests := iam_requests c; iam_fault := iam_fault c;
     deployments := S (deployments c); deploy_outcome := deploy_outcome c;
     endpoints := endpoints c ++ new;
     invocations := invocations c; endpoint_reply := endpoint_reply c |}.

Definition tick_invoke (c : cloud) : cloud :=
  {| account := account c; roles := roles c; policy_quota := policy_quota c;
     iam_requests := iam_requests c; iam_fault := iam_fault c;
     deployments := deployments c; deploy_outcome := deploy_outcome c;
     endpoints := endpoints c;
     invocations := S (invocations c); endpoint_reply := endpoint_reply c |}.

(* ===================================================================== *)
(** ** The monad of statements *)
(* ===================================================================== *)

Definition M (A : Type) : Type := cloud -> outcome A * cloud * list event.

Definition ret {A} (a : A) : M A := fun c => (Ok a, c, []).

Definition raise {A} (e : exn) : M A := fun c => (Raise e, c, []).

Definition bind {A B} (m : M A) (k : A -> M B) : M B :=
  fun c =>
    match m c with
    | (Ok a, c1, t1) =>
        match k a c1 with
        | (r, c2, t2) => (r, c2, t1 ++ t2)
        end
    | (Raise e, c1, t1) => (Raise e, c1, t1)
    end.

(** stdpp's notations: [x ← m; k] and [m;; k]. *)
#[global] Instance M_ret : MRet M := @ret.
#[global] Instance M_bind : MBind M := fun A B k m => bind m k.

Definition lift {A} (r : outcome A) : M A := fun c => (r, c, []).

Definition emit (ev : event) : M unit := fun c => (Ok tt, c, [ev]).

(** [print(...)] *)
Definition print (l : line) : M unit := emit (Print l).

(** [time.sleep(n)] *)
Definition sleep (n : Z) : M unit := emit (Sleep n).

(** [try: body / except f1 as e: h1 e / except f2 as e: h2 e / ...]: the
    first clause whose filter accepts the exception handles it, and an
    exception no clause accepts goes on.  What the body did before it raised
    stays done. *)
Definition clause (A : Type) : Type := ((exn -> bool) * (exn -> M A))%type.

Fixpoint select_handler {A} (clauses : list (clause A)) (e : exn) : option (M A) :=
  match clauses with
  | [] => None
  | (accepts, handler) :: rest =>
      if accepts e then Some (handler e) else select_handler rest e
  end.

Definition try_except {A} (body : M A) (clauses : list (clause A)) : M A :=
  fun c =>
    match body c with
    | (Ok a, c1, t1) => (Ok a, c1, t1)
    | (Raise e, c1, t1) =>
        match select_handler clauses e with
        | Some h =>
            match h c1 with
            | (r, c2, t2) => (r, c2, t1 ++ t2)
            end
        | None => (Raise e, c1, t1)
        end
    end.

(** [except Exception] *)
Definition any_Exception : exn -> bool := fun _ => true.

(** [for x in l: body x] *)
Fixpoint for_each {A} (body : A -> M unit) (l : list A) : M unit :=
  match l with
  | [] => ret tt
  | x :: rest => body x;; for_each body rest
  end.

(** [enumerate(l, start)] *)
Fixpoint enumerate {A} (l : list A) (start : Z) : list (Z * A) :=
  match l with
  | [] => []
  | x :: rest => (start, x) :: enumerate rest (start + 1)
  end.

(* ===================================================================== *)
(** ** Requests to the provider *)
(* ===================================================================== *)

(** A request to IAM is counted, and fails with the provider's fault when
    there is one for it; otherwise IAM serves it. *)
Definition iam_request {A} (ev : event) (serve : cloud -> outcome A * cloud) : M A :=
  fun c =>
    match iam_fault c (iam_requests c) with
    | Some code => (Raise (ClientError code), tick_iam c, [ev])
    | None =>
        match serve (tick_iam c) with
        | (r, c') => (r, c', [ev])
        end
    end.

(** [iam.create_role(...)]: refuses a name that is taken; the new role gets
    its ARN from the account, the path and the name. *)
Definition iam_create_role (RoleName : string) (AssumeRolePolicyDocument : json)
    (Description Path : string) : M iam_role :=
  iam_request (IamCreateRole RoleName AssumeRolePolicyDocument Description Path)
    (fun c =>
       match roles c !! RoleName with
       | Some _ => (Raise EntityAlreadyExistsException, c)
       | None =>
           let r := {| Arn := "arn:aws:iam::" +:+ account c +:+ ":role" +:+ Path +:+ RoleName;
                       trust := AssumeRolePolicyDocument;
                       attached := [] |} in
           (Ok r, set_roles c (<[RoleName := r]> (roles c)))
       end).

(** [iam.get_role(RoleName=...)] *)
Definition iam_get_role (RoleName : string) : M iam_role :=
  iam_request (IamGetRole RoleName)
    (fun c =>
       match roles c !! RoleName with
       | Some r => (Ok r, c)
       | None => (Raise NoSuchEntityException, c)
       end).

(** [iam.attach_role_policy(...)]: attaching a policy that is attached
    already changes nothing and succeeds; a role holds [policy_quota]
    policies at most. *)
Definition iam_attach_role_policy (RoleName PolicyArn : string) : M unit :=
  iam_request (IamAttachRolePolicy RoleName PolicyArn)
    (fun c =>
       match roles c !! RoleName with
       | None => (Raise NoSuchEntityException, c)
       | Some r =>
           if bool_decide (PolicyArn ∈ attached r) then (Ok tt, c)
           else if bool_decide (policy_quota c ≤ length (attached r))%nat
           then (Raise LimitExceededException, c)
           else
             let r' := {| Arn := Arn r; trust := trust r;
                          attached := attached r ++ [PolicyArn] |} in
             (Ok tt, set_roles c (<[RoleName := r']> (roles c)))
       end).

(** [model.deploy(...)]: one deployment, blocking until it is over.  The
    endpoint bears the name the caller chose, or else the one the provider
    generates. *)
Definition sm_deploy (req : deploy_request) : M HuggingFacePredictor :=
  fun c =>
    match deploy_outcome c (deployments c) req with
    | Ok generated =>
        let name := default generated (req_endpoint_name req) in
        (Ok {| endpoint_name := name |}, tick_deploy c [name], [SmDeploy req])
    | Raise e => (Raise e, tick_deploy c [], [SmDeploy req])
    end.

(** [predictor.predict(data)]: one invocation of the predictor's endpoint.
    Every response is deserialised anew, so no two results share a part. *)
Definition predict (p : HuggingFacePredictor) (data : json) : M json :=
  fun c =>
    (endpoint_reply c (invocations c) (endpoint_name p) data,
     tick_invoke c,
     [SmInvoke (endpoint_name p) data]).

(* ===================================================================== *)
(** ** finbert.py *)
(* ===================================================================== *)

Definition trust_policy : json :=
  JDict [("Version", JStr "2012-10-17");
         ("Statement",
          JList [JDict [("Effect", JStr "Allow");
                        ("Principal", JDict [("Service", JStr "sagemaker.amazonaws.com")]);
                        ("Action", JStr "sts:AssumeRole")]])].

Definition required_policies : list string :=
  ["arn:aws:iam::aws:policy/AmazonSageMakerFullAccess";
   "arn:aws:iam::aws:policy/AmazonS3FullAccess";
   "arn:aws:iam::aws:policy/AmazonEC2ContainerRegistryReadOnly"].

(** The first [try] of [create_sagemaker_execution_role]: the value of
    [role_arn] after it.  [json.dumps(trust_policy)] is passed as the
    document it encodes. *)
Definition create_or_get_role (role_name : string) : M string :=
  try_except
    (print [Str "Creating IAM role: "; Str role_name];;
     response ← iam_create_role role_name trust_policy
                  "SageMaker execution role for model deployment" "/";
     let role_arn := Arn response in
     print [Str "✓ Created role: "; Str role_arn];;
     sleep 10;;
     ret role_arn)
    [(is_EntityAlreadyExists,
      fun _ =>
        print [Str "Role "; Str role_name; Str " already exists, using existing role"];;
        response ← iam_get_role role_name;
        ret (Arn response))].

(** The body of the loop over [required_policies]. *)
Definition attach_policy (role_name policy_arn : string) : M unit :=
  try_except
    (iam_attach_role_policy role_name policy_arn;;
     print [Str "✓ Attached policy: "; Str policy_arn])
    [(is_LimitExceeded,
      fun _ => print [Str "Policy already attached: "; Str policy_arn]);
     (any_Exception,
      fun e => print [Str "Warning: Could not attach policy "; Str policy_arn;
                      Str ": "; ExnMsg e])].

(** [create_sagemaker_execution_role], with its local constant [role_name]
    as a parameter. *)
Definition create_sagemaker_execution_role_named (role_name : string) : M string :=
  role_arn ← create_or_get_role role_name;
  for_each (attach_policy role_name) required_policies;;
  ret role_arn.

Definition create_sagemaker_execution_role : M string :=
  create_sagemaker_execution_role_named "SageMakerExecutionRole".

Definition hub : list (string * string) :=
  [("HF_MODEL_ID", "ProsusAI/finbert");
   ("HF_TASK", "text-classification");
   ("HF_OPTIMUM_BATCH_SIZE", "1");
   ("HF_OPTIMUM_SEQUENCE_LENGTH", "512")].

(** [hub[k]] for a key [k] of [hub] *)
Definition hub_at (k : string) : string :=
  default "" (snd <$> head (filter (fun kv => kv.1 = k) hub)).

(** [huggingface_model._is_compiled_model = True] *)
Definition set_is_compiled_model (m : HuggingFaceModel) (b : bool) : HuggingFaceModel :=
  {| transformers_version := transformers_version m;
     pytorch_version := pytorch_version m;
     py_version := py_version m;
     env := env m;
     role := role m;
     is_compiled_model := b |}.

Definition banner (title : string) : M unit :=
  print [Str (nl +:+ str_mul "=" 50)];;
  print [Str title];;
  print [Str (str_mul "=" 50)].

(** The model [deploy_huggingface_model] describes. *)
Definition huggingface_model (role_arn : string) : HuggingFaceModel :=
  let huggingface_model :=
    {| transformers_version := "4.43.2";
       pytorch_version := "2.1.2";
       py_version := "py310";
       env := hub;
       role := role_arn;
       is_compiled_model := false |} in
  set_is_compiled_model huggingface_model true.

Definition deploy_huggingface_model (role_arn : string) : M HuggingFacePredictor :=
  banner "DEPLOYING HUGGINGFACE MODEL";;
  print [Str "Model ID: "; Str (hub_at "HF_MODEL_ID")];;
  print [Str "Task: "; Str (hub_at "HF_TASK")];;
  let huggingface_model := huggingface_model role_arn in
  print [Str "Deploying model to SageMaker endpoint..."];;
  print [Str "⚠️  This may take 5-10 minutes..."];;
  predictor ← sm_deploy {| model := huggingface_model;
                           initial_instance_count := 1;
                           instance_type := "ml.inf2.xlarge";
                           req_endpoint_name := None |};
  print [Str "✓ Model deployed successfully!"];;
  print [Str "✓ Endpoint name: "; Str (endpoint_name predictor)];;
  ret predictor.

Definition test_texts : list string :=
  ["The company's quarterly earnings exceeded expectations significantly.";
   "Market volatility increased due to economic uncertainty.";
   "Strong revenue growth driven by innovative product launches.";
   "Major layoffs announced affecting 15% of workforce.";
   "Stock price surged after positive analyst upgrade."].

(** [f"\n{i}. Text: \"{text[:60]}{'...' if len(text) > 60 else ''}\""].
    Lengths are counted in characters of the Rocq string. *)
Definition text_line (i : Z) (text : string) : line :=
  [Str nl; Val (JInt i); Str (". Text: " +:+ dq);
   Str (String.substring 0 60 text);
   Str (if Nat.ltb 60 (String.length text) then "..." else "");
   Str dq].

(** [f"   Sentiment: {label} (confidence: {score:.3f})"] *)
Definition sentiment_line (label score : json) : line :=
  [Str "   Sentiment: "; Val label; Str " (confidence: "; Fixed3 score; Str ")"].

(** [f"   Result: {result}"] *)
Definition raw_line (result : json) : line :=
  [Str "   Result: "; Val result].

(** [f"\n{i}. Error testing text: {e}"] *)
Definition error_line (i : Z) (e : exn) : line :=
  [Str nl; Val (JInt i); Str ". Error testing text: "; ExnMsg e].

(** The body of the loop of [test_endpoint]. *)
Definition test_text (predictor : HuggingFacePredictor) (i : Z) (text : string) : M unit :=
  try_except
    (result ← predict predictor (JDict [("inputs", JStr text)]);
     if is_nonempty_list result then
       prediction ← lift (py_index result 0);
       label ← lift (py_get prediction "label" (JStr "Unknown"));
       score ← lift (py_get prediction "score" (JFloat 0.0));
       print (text_line i text);;
       score ← lift (format_3f_check score);
       print (sentiment_line label score)
     else
       print (text_line i text);;
       print (raw_line result))
    [(any_Exception, fun e => print (error_line i e))].

(** [test_endpoint], with its local constant [test_texts] as a parameter. *)
Definition test_endpoint_on (test_texts : list string) (predictor : HuggingFacePredictor) : M unit :=
  banner "TESTING ENDPOINT";;
  print [Str "Testing with sample financial texts:"];;
  for_each (fun '(i, text) => test_text predictor i text) (enumerate test_texts 1).

Definition test_endpoint : HuggingFacePredictor -> M unit := test_endpoint_on test_texts.

(** The snippet [main] prints for connecting to the endpoint later: one
    triple-quoted f-string. *)
Definition connection_snippet (name : string) : line :=
  [Str (nl +:+ "from sagemaker.huggingface import HuggingFacePredictor" +:+ nl +:+ nl
        +:+ "predictor = HuggingFacePredictor(" +:+ nl
        +:+ "    endpoint_name='");
   Str name;
   Str ("'," +:+ nl
        +:+ "    sagemaker_session=sagemaker.Session()" +:+ nl
        +:+ ")" +:+ nl +:+ nl
        +:+ "result = predictor.predict({" +:+ dq +:+ "inputs" +:+ dq +:+ ": "
        +:+ dq +:+ "Your text here" +:+ dq +:+ "})" +:+ nl
        +:+ "print(result)" +:+ nl +:+ "        ")].

(** The [try] block of [main]. *)
Definition main_steps : M HuggingFacePredictor :=
  print [Str "Step 1: Creating SageMaker execution role..."];;
  role_arn ← create_sagemaker_execution_role;
  print [Str (nl +:+ "Step 2: Deploying HuggingFace model with role: "); Str role_arn];;
  predictor ← deploy_huggingface_model role_arn;
  print [Str (nl +:+ "Step 3: Testing the deployed endpoint...")];;
  test_endpoint predictor;;
  print [Str (nl +:+ str_mul "=" 50)];;
  print [Str "DEPLOYMENT COMPLETE!"];;
  print [Str (str_mul "=" 50)];;
  print [Str "✓ Endpoint Name: "; Str (endpoint_name predictor)];;
  print [Str "✓ Role ARN: "; Str role_arn];;
  print [Str (nl +:+ "📝 To connect to this endpoint later, use:")];;
  print (connection_snippet (endpoint_name predictor));;
  print [Str (nl +:+ "⚠️  Remember to delete the endpoint when done to avoid charges:")];;
  print [Str "predictor.delete_endpoint()"];;
  ret predictor.

(** The [except Exception as e] clause of [main]; its last statement is a
    bare [raise]. *)
Definition main_failed (e : exn) : M HuggingFacePredictor :=
  print [Str "❌ Deployment failed: "; ExnMsg e];;
  print [Str "Please check your AWS credentials and permissions."];;
  raise e.

Definition main : M HuggingFacePredictor :=
  print [Str "🚀 SAGEMAKER HUGGINGFACE DEPLOYMENT SCRIPT"];;
  print [Str (str_mul "=" 60)];;
  try_except main_steps [(any_Exception, main_failed)].

(** The script: [if __name__ == "__main__"]. *)
Definition finbert : M HuggingFacePredictor :=
  predictor ← main;
  print [Str (nl +:+ "🎉 Predictor object available as 'predictor'")];;
  print [Str "Endpoint: "; Str (endpoint_name predictor)];;
  ret predictor.

(* ===================================================================== *)
(** ** finbert-invoke.py *)
(* ===================================================================== *)

Module invoke.

Definition endpoint_name : string :=
  "huggingface-pytorch-inference-neuronx-m-2025-07-03-02-04-22-948".

(** [HuggingFacePredictor(endpoint_name=..., sagemaker_session=...)] *)
Definition predictor : HuggingFacePredictor :=
  {| sagemaker.endpoint_name := endpoint_name |}.

Definition inputs : list string :=
  ["Hyperfine spiked 30% in the past day due to a new software release";
   "GE stock price droped 20% last quarter due to waining demand for appliances";
   "Linkedin subscriptions up 30%"].

(** [result[0]["phrase"] = phrase]: [result] after the statement.  The
    assignment changes the object that [result[0]] is, in place, so [result]
    holds the changed entry at index 0. *)
Definition tag_first (result : json) (phrase : string) : outcome json :=
  match py_index result 0 with
  | Raise e => Raise e
  | Ok first =>
      match py_setitem first "phrase" (JStr phrase) with
      | Raise e => Raise e
      | Ok first' =>
          Ok (match result with
              | JList l => JList (<[0%nat := first']> l)
              | _ => result
              end)
      end
  end.

(** The prediction loop: [outputs] after it, starting from [outputs]. *)
Fixpoint make_predictions (p : HuggingFacePredictor) (inputs : list string)
    (outputs : list json) : M (list json) :=
  match inputs with
  | [] => ret outputs
  | phrase :: rest =>
      result ← predict p (JDict [("inputs", JStr phrase)]);
      result ← lift (tag_first result phrase);
      make_predictions p rest (outputs ++ [result])
  end.

(** The body of the printing loop. *)
Definition print_prediction (pred : json) : M unit :=
  first ← lift (py_index pred 0);
  phrase ← lift (py_getitem first "phrase");
  first ← lift (py_index pred 0);
  score ← lift (py_getitem first "score");
  first ← lift (py_index pred 0);
  label ← lift (py_getitem first "label");
  print [Str "Phrase: "; Val phrase; Str ", Score: "; Val score; Str ", Label: "; Val label].

(** The script with its constant [inputs] as a parameter: the value of
    [outputs] when it ends. *)
Definition script_on (inputs : list string) : M (list json) :=
  outputs ← make_predictions predictor inputs [];
  for_each print_prediction outputs;;
  ret outputs.

Definition script : M (list json) := script_on inputs.

End invoke.

(* ===================================================================== *)
(** ** Observing a run *)
(* ===================================================================== *)

(** The three parts of a run: what it returned or raised, the cloud it
    left, the events it emitted. *)
Definition value {A} (x : outcome A * cloud * list event) : outcome A := x.1.1.
Definition final {A} (x : outcome A * cloud * list event) : cloud := x.1.2.
Definition trace {A} (x : outcome A * cloud * list event) : list event := x.2.

(** The cloud after [k] more invocations of an endpoint. *)
Fixpoint after_invocations (k : nat) (c : cloud) : cloud :=
  match k with
  | O => c
  | S k' => after_invocations k' (tick_invoke c)
  end.

(** The payload [{"inputs": text}]. *)
Definition payload (text : string) : json := JDict [("inputs", JStr text)].

Definition is_print (ev : event) : bool :=
  match ev with Print _ => true | _ => false end.

(** The policies the trace asks IAM to attach to the role, in order. *)
Fixpoint attach_requests (role_name : string) (t : list event) : list string :=
  match t with
  | [] => []
  | IamAttachRolePolicy r p :: t' =>
      if bool_decide (r = role_name) then p :: attach_requests role_name t'
      else attach_requests role_name t'
  | _ :: t' => attach_requests role_name t'
  end.

(** What [banner] emits. *)
Definition banner_events (title : string) : list event :=
  [Print [Str (nl +:+ str_mul "=" 50)]; Print [Str title]; Print [Str (str_mul "=" 50)]].

(** What the test of the [k]-th text of a batch emits, on its own: the
    trace of [test_text] in the cloud as the [k] earlier invocations left
    it. *)
Definition report (p : HuggingFacePredictor) (c : cloud) (k : nat)
    (item : Z * string) : list event :=
  trace (test_text p item.1 item.2 (after_invocations k c)).

(** What [test_endpoint] emits before its loop. *)
Definition test_header : list event :=
  banner_events "TESTING ENDPOINT" ++
  [Print [Str "Testing with sample financial texts:"]].

(** The reply to the [k]-th invocation from cloud [c] on, for [phrase]. *)
Definition reply_at (p : HuggingFacePredictor) (c : cloud) (k : nat)
    (phrase : string) : outcome json :=
  endpoint_reply c (invocations c + k) (endpoint_name p) (payload phrase).

(** A reply with its first entry tagged by the phrase. *)
Definition tagged (phrase : string) (d : list (string * json))
    (rest : list json) : json :=
  JList (JDict (dict_store "phrase" (JStr phrase) d) :: rest).

(** The durations of the sleeps of a trace, in order. *)
Fixpoint sleeps (t : list event) : list Z :=
  match t with
  | [] => []
  | Sleep n :: t' => n :: sleeps t'
  | _ :: t' => sleeps t'
  end.

(** IAM serves every request from now on. *)
Definition fault_free (c : cloud) : Prop :=
  forall n, (iam_requests c <= n)%nat -> iam_fault c n = None.

(** The role [role_name] exists with identifier [arn]. *)
Definition has_role (c : cloud) (role_name arn : string) : Prop :=
  exists r, roles c !! role_name = Some r /\ Arn r = arn.

(** The line the loop prints for a policy, given how the request ended. *)
Definition attach_line (policy_arn : string) (r : outcome unit) : line :=
  match r with
  | Ok _ => [Str "✓ Attached policy: "; Str policy_arn]
  | Raise e =>
      if is_LimitExceeded e then [Str "Policy already attached: "; Str policy_arn]
      else [Str "Warning: Could not attach policy "; Str policy_arn; Str ": "; ExnMsg e]
  end.

(** The role [create_role] makes in cloud [c] for the provisioning step. *)
Definition created_role (c : cloud) (role_name : string) : iam_role :=
  {| Arn := "arn:aws:iam::" +:+ account c +:+ ":role" +:+ "/" +:+ role_name;
     trust := trust_policy;
     attached := [] |}.

(** The creation request of the provisioning step. *)
Definition create_request (role_name : string) : event :=
  IamCreateRole role_name trust_policy
    "SageMaker execution role for model deployment" "/".

(** The deployments a trace requests, in order. *)
Fixpoint deploy_requests (t : list event) : list deploy_request :=
  match t with
  | [] => []
  | SmDeploy req :: t' => req :: deploy_requests t'
  | _ :: t' => deploy_requests t'
  end.

(** The request [deploy_huggingface_model] sends. *)
Definition request_for (role_arn : string) : deploy_request :=
  {| model := huggingface_model role_arn;
     initial_instance_count := 1;
     instance_type := "ml.inf2.xlarge";
     req_endpoint_name := None |}.

(** What [deploy_huggingface_model] emits before its request. *)
Definition deploy_prelude : list event :=
  banner_events "DEPLOYING HUGGINGFACE MODEL" ++
  [Print [Str "Model ID: "; Str "ProsusAI/finbert"];
   Print [Str "Task: "; Str "text-classification"];
   Print [Str "Deploying model to SageMaker endpoint..."];
   Print [Str "⚠️  This may take 5-10 minutes..."]].

(** What [main] emits before the role step. *)
Definition main_header : list event :=
  [Print [Str "🚀 SAGEMAKER HUGGINGFACE DEPLOYMENT SCRIPT"];
   Print [Str (str_mul "=" 60)];
   Print [Str "Step 1: Creating SageMaker execution role..."]].

Definition step2_line (role_arn : string) : line :=
  [Str (nl +:+ "Step 2: Deploying HuggingFace model with role: "); Str role_arn].

(** What the [except] clause of [main] prints. *)
Definition failure_report (e : exn) : list event :=
  [Print [Str "❌ Deployment failed: "; ExnMsg e];
   Print [Str "Please check your AWS credentials and permissions."]].

(** Whether the first request of the provisioning step, [create_role],
    creates the role: IAM serves it and the name is free. *)
Definition creates_role (c : cloud) (role_name : string) : bool :=
  match iam_fault c (iam_requests c), roles c !! role_name with
  | None, None => true
  | _, _ => false
  end.

(* ===================================================================== *)
(** ** Example clouds *)
(* ===================================================================== *)

(** The response [[{"label": "positive", "score": 0.87}]]. *)
Definition canned : json :=
  JList [JDict [("label", JStr "positive"); ("score", JFloat 0.87)]].

Definition generated_name : string :=
  "huggingface-pytorch-inference-neuronx-m-2025-07-03-02-04-22-948".

(** An account without roles, given what the provider decides. *)
Definition example_cloud (quota : nat) (fault : nat -> option string)
    (deploy : nat -> deploy_request -> outcome string)
    (reply : nat -> string -> json -> outcome json) : cloud :=
  {| account := "123456789012"; roles := ∅; policy_quota := quota;
     iam_requests := 0; iam_fault := fault;
     deployments := 0; deploy_outcome := deploy;
     endpoints := [];
     invocations := 0; endpoint_reply := reply |}.

Definition no_fault : nat -> option string := fun _ => None.
Definition deploy_ok : nat -> deploy_request -> outcome string :=
  fun _ _ => Ok generated_name.
Definition deploy_fails : nat -> deploy_request -> outcome string :=
  fun _ _ => Raise (ClientError "ResourceLimitExceeded").
Definition always_canned : nat -> string -> json -> outcome json :=
  fun _ _ _ => Ok canned.
(** The second invocation fails, the others answer [canned]. *)
Definition second_raises : nat -> string -> json -> outcome json :=
  fun n _ _ => if Nat.eqb n 1 then Raise (ClientError "ModelError") else Ok canned.
(** Every invocation answers an entry without keys. *)
Definition always_bare : nat -> string -> json -> outcome json :=
  fun _ _ _ => Ok (JList [JDict []]).
(** Every invocation answers an empty list. *)
Definition always_empty : nat -> string -> json -> outcome json :=
  fun _ _ _ => Ok (JList []).
(** The third IAM request is denied. *)
Definition third_denied : nat -> option string :=
  fun n => if Nat.eqb n 2 then Some "AccessDenied" else None.

Definition quiet_cloud : cloud := example_cloud 10 no_fault deploy_ok always_canned.
Definition flaky_endpoint_cloud : cloud := example_cloud 10 no_fault deploy_ok second_raises.
Definition bare_endpoint_cloud : cloud := example_cloud 10 no_fault deploy_ok always_bare.
Definition empty_endpoint_cloud : cloud := example_cloud 10 no_fault deploy_ok always_empty.
Definition failed_deploy_cloud : cloud := example_cloud 10 no_fault deploy_fails always_canned.
(** One policy at most per role, and the third request denied: in the
    provisioning step, the second attachment. *)
Definition strict_iam_cloud : cloud := example_cloud 1 third_denied deploy_ok always_canned.
(** The account once the provisioning step has run in it. *)
Definition provisioned_cloud : cloud := final (create_sagemaker_execution_role quiet_cloud).

(* ===================================================================== *)
(** ** Further observations *)
(* ===================================================================== *)

(** The invocations a trace makes, in order: endpoint and payload. *)
Fixpoint invoke_requests (t : list event) : list (string * json) :=
  match t with
  | [] => []
  | SmInvoke name data :: t' => (name, data) :: invoke_requests t'
  | _ :: t' => invoke_requests t'
  end.

(** The lines a trace prints, in order. *)
Fixpoint printed (t : list event) : list line :=
  match t with
  | [] => []
  | Print l :: t' => l :: printed t'
  | _ :: t' => printed t'
  end.

(** An event that stays within the provisioning of role [role_name]: a
    printed line, a sleep, or a request to IAM that names that role. *)
Definition concerns_role (role_name : string) (ev : event) : bool :=
  match ev with
  | Print _ | Sleep _ => true
  | IamCreateRole n _ _ _ | IamGetRole n | IamAttachRolePolicy n _ =>
      bool_decide (n = role_name)
  | SmDeploy _ | SmInvoke _ _ => false
  end.

(** Role [r'] is role [r] with policies added, if any. *)
Definition extends (r r' : iam_role) : Prop :=
  Arn r' = Arn r /\ trust r' = trust r /\
  exists extra, attached r' = attached r ++ extra.

(** Cloud [c'] differs from [c] in IAM's roles and count of requests at
    most. *)
Definition iam_only (c c' : cloud) : Prop :=
  account c' = account c /\ policy_quota c' = policy_quota c /\
  iam_fault c' = iam_fault c /\ deployments c' = deployments c /\
  deploy_outcome c' = deploy_outcome c /\ endpoints c' = endpoints c /\
  invocations c' = invocations c /\ endpoint_reply c' = endpoint_reply c.

(** The request [test_endpoint] and the standalone script send for a text. *)
Definition invocation (p : HuggingFacePredictor) (text : string) : string * json :=
  (endpoint_name p, payload text).

(** [f'Phrase: {...}, Score: {...}, Label: {...}'] *)
Definition prediction_line (phrase score label : json) : line :=
  [Str "Phrase: "; Val phrase; Str ", Score: "; Val score; Str ", Label: "; Val label].

(** What [main] prints after the test of the endpoint. *)
Definition main_closing (name role_arn : string) : list event :=
  [Print [Str (nl +:+ str_mul "=" 50)];
   Print [Str "DEPLOYMENT COMPLETE!"];
   Print [Str (str_mul "=" 50)];
   Print [Str "✓ Endpoint Name: "; Str name];
   Print [Str "✓ Role ARN: "; Str role_arn];
   Print [Str (nl +:+ "📝 To connect to this endpoint later, use:")];
   Print (connection_snippet name);
   Print [Str (nl +:+ "⚠️  Remember to delete the endpoint when done to avoid charges:")];
   Print [Str "predictor.delete_endpoint()"]].

(** What the script prints after [main]. *)
Definition script_closing (name : string) : list event :=
  [Print [Str (nl +:+ "🎉 Predictor object available as 'predictor'")];
   Print [Str "Endpoint: "; Str name]].

(** The cloud with other faults of IAM. *)
Definition set_iam_fault (c : cloud) (fault : nat -> option string) : cloud :=
  {| account := account c; roles := roles c; policy_quota := policy_quota c;
     iam_requests := iam_requests c; iam_fault := fault;
     deployments := deployments c; deploy_outcome := deploy_outcome c;
     endpoints := endpoints c;
     invocations := invocations c; endpoint_reply := endpoint_reply c |}.

(** The first IAM request is denied. *)
Definition first_denied : nat -> option string :=
  fun n => if Nat.eqb n 0 then Some "AccessDenied" else None.
(** The next request but one is denied: for the provisioning step on an
    account that has the role, its [get_role]. *)
Definition second_denied_from (start : nat) : nat -> option string :=
  fun n => if Nat.eqb n (S start) then Some "AccessDenied" else None.
(** Every invocation answers a list of lists, as a pipeline asked for all
    the scores does. *)
Definition always_nested : nat -> string -> json -> outcome json :=
  fun _ _ _ => Ok (JList [canned]).
(** Every invocation answers a score that is a string. *)
Definition always_worded : nat -> string -> json -> outcome json :=
  fun _ _ _ => Ok (JList [JDict [("label", JStr "positive"); ("score", JStr "high")]]).
(** Every invocation answers an entry without a label. *)
Definition always_unlabelled : nat -> string -> json -> outcome json :=
  fun _ _ _ => Ok (JList [JDict [("score", JFloat 0.87)]]).

Definition denied_cloud : cloud := example_cloud 10 first_denied deploy_ok always_canned.
Definition unreadable_role_cloud : cloud :=
  set_iam_fault provisioned_cloud (second_denied_from (iam_requests provisioned_cloud)).
Definition nested_endpoint_cloud : cloud := example_cloud 10 no_fault deploy_ok always_nested.
Definition worded_endpoint_cloud : cloud := example_cloud 10 no_fault deploy_ok always_worded.
Definition unlabelled_endpoint_cloud : cloud :=
  example_cloud 10 no_fault deploy_ok always_unlabelled.

(* ===================================================================== *)
(** ** Lemmas on running a computation *)
(* ===================================================================== *)

Lemma run_bind {A B} (m : M A) (k : A -> M B) (c : cloud) :
  (m ≫= k) c =
  match m c with
  | (Ok a, c1, t1) => match k a c1 with (r, c2, t2) => (r, c2, t1 ++ t2) end
  | (Raise e, c1, t1) => (Raise e, c1, t1)
  end.
Proof. reflexivity. Qed.

Lemma run_bind_Ok {A B} (m : M A) (k : A -> M B) c a c1 t1 :
  m c = (Ok a, c1, t1) ->
  (m ≫= k) c = (value (k a c1), final (k a c1), t1 ++ trace (k a c1)).
Proof.
  intros Hm. rewrite run_bind, Hm.
  destruct (k a c1) as [[r c2] t2]. reflexivity.
Qed.

Lemma run_bind_Raise {A B} (m : M A) (k : A -> M B) c e c1 t1 :
  m c = (Raise e, c1, t1) -> (m ≫= k) c = (Raise e, c1, t1).
Proof. intros Hm. rewrite run_bind, Hm. reflexivity. Qed.

Lemma run_print {A} (l : line) (k : M A) c :
  (print l;; k) c = (value (k c), final (k c), Print l :: trace (k c)).
Proof.
  change (print l;; k) with (print l ≫= fun _ => k).
  rewrite run_bind. simpl. destruct (k c) as [[r c2] t2]. reflexivity.
Qed.

Lemma triple_eta {A} (x : outcome A * cloud * list event) :
  x = (value x, final x, trace x).
Proof. destruct x as [[r c] t]. reflexivity. Qed.

Lemma run_for_each_cons {A} (body : A -> M unit) x l c :
  for_each body (x :: l) c = (body x;; for_each body l) c.
Proof. reflexivity. Qed.

Ltac run :=
  unfold mbind, M_bind, mret, M_ret, bind, ret, raise, lift, print, sleep, emit,
    try_except, predict, value, final, trace in *; simpl in *.

(* ===================================================================== *)
(** ** The in-deployment test flow *)
(* ===================================================================== *)

Section test_flow.

Variable p : HuggingFacePredictor.

(** Whatever the endpoint answers, testing one text ends normally after
    exactly one invocation. *)
Lemma test_text_total i text c :
  exists t,
    test_text p i text c =
    (Ok tt, tick_invoke c, SmInvoke (endpoint_name p) (payload text) :: t).
Proof.
  unfold test_text. run. fold (payload text).
  destruct (endpoint_reply c (invocations c) (endpoint_name p) (payload text))
    as [result|e]; simpl; [|eauto].
  destruct result as [| | | | |[|first l]|]; simpl; eauto.
  destruct first as [| | | | | |d]; simpl; eauto.
  destruct (format_3f_check _); simpl; eauto.
Qed.

Lemma format_3f_check_Ok v v' : format_3f_check v = Ok v' -> v' = v.
Proof.
  destruct v; simpl; try discriminate; try congruence.
  case_match; [congruence|discriminate].
Qed.

(** An invocation that raises is reported on its own line, and nothing
    else happens for that text. *)
Lemma test_text_error i text c e :
  endpoint_reply c (invocations c) (endpoint_name p) (payload text) = Raise e ->
  test_text p i text c =
  (Ok tt, tick_invoke c,
   [SmInvoke (endpoint_name p) (payload text); Print (error_line i e)]).
Proof.
  intros Hreply. unfold test_text. run. fold (payload text).
  rewrite Hreply. reflexivity.
Qed.


(** A non-empty list whose first entry is an object: the label and the
    score are read from that entry, with their defaults. *)
Lemma test_text_first_entry i text c d rest :
  endpoint_reply c (invocations c) (endpoint_name p) (payload text)
    = Ok (JList (JDict d :: rest)) ->
  let label := default (JStr "Unknown") (dict_lookup "label" d) in
  let score := default (JFloat 0.0) (dict_lookup "score" d) in
  test_text p i text c =
  (Ok tt, tick_invoke c,
   SmInvoke (endpoint_name p) (payload text) :: Print (text_line i text) ::
   match format_3f_check score with
   | Ok s => [Print (sentiment_line label s)]
   | Raise e => [Print (error_line i e)]
   end).
Proof.
  intros Hreply label score. unfold test_text. run. fold (payload text).
  rewrite Hreply. simpl.
  change (match dict_lookup "score" d with Some x => x | None => JFloat 0 end)
    with score.
  destruct (format_3f_check score); reflexivity.
Qed.

End test_flow.

Section test_flow_batch.

Variable p : HuggingFacePredictor.

Lemma for_each_test_text items c :
  for_each (fun '(i, text) => test_text p i text) items c =
  (Ok tt, after_invocations (length items) c, concat (imap (report p c) items)).
Proof.
  revert c. induction items as [|[i text] items IH]; intros c; [reflexivity|].
  rewrite run_for_each_cons.
  destruct (test_text_total p i text c) as [t Ht].
  change (test_text p i text;; ?k) with (test_text p i text ≫= fun _ => k).
  rewrite (run_bind_Ok _ _ _ _ _ _ Ht), IH. unfold value, final, trace. simpl.
  f_equal. replace (report p c 0 (i, text)) with
    (SmInvoke (endpoint_name p) (payload text) :: t)
    by (unfold report; simpl; rewrite Ht; reflexivity).
  reflexivity.
Qed.

Lemma length_enumerate {A} (l : list A) start : length (enumerate l start) = length l.
Proof. revert start. induction l; intros; simpl; [|rewrite IHl]; reflexivity. Qed.

Lemma imap_enumerate {A B} (f : nat -> Z * A -> B) (l : list A) (start : Z) :
  imap f (enumerate l start) =
  imap (fun k x => f k ((start + Z.of_nat k)%Z, x)) l.
Proof.
  revert f start. induction l as [|x l IH]; intros f start; [reflexivity|].
  simpl. rewrite Z.add_0_r. f_equal. rewrite IH.
  apply imap_ext. intros k y _. simpl. do 2 f_equal. lia.
Qed.

Lemma invocations_after k c :
  invocations (after_invocations k c) = (invocations c + k)%nat.
Proof. revert c. induction k; intros c; simpl; [|rewrite IHk; simpl]; lia. Qed.

Lemma endpoint_reply_after k c :
  endpoint_reply (after_invocations k c) = endpoint_reply c.
Proof. revert c. induction k; intros c; simpl; [|rewrite IHk]; reflexivity. Qed.

Lemma test_endpoint_on_run texts c :
  test_endpoint_on texts p c =
  (Ok tt, after_invocations (length texts) c,
   test_header ++ concat (imap (report p c) (enumerate texts 1))).
Proof.
  unfold test_endpoint_on.
  change (banner ?title;; ?k) with (banner title ≫= fun _ => k).
  rewrite (run_bind_Ok _ _ _ tt c (banner_events "TESTING ENDPOINT")) by reflexivity.
  rewrite run_print, for_each_test_text, length_enumerate. reflexivity.
Qed.

End test_flow_batch.

(* ===================================================================== *)
(** ** The standalone invocation flow *)
(* ===================================================================== *)

Section standalone_flow.

Variable p : HuggingFacePredictor.

Lemma dict_lookup_store_eq k v d : dict_lookup k (dict_store k v d) = Some v.
Proof.
  induction d as [|[k' v'] d IH]; simpl.
  - rewrite bool_decide_eq_true_2; reflexivity.
  - destruct (bool_decide (k' = k)) eqn:E; simpl.
    + rewrite bool_decide_eq_true_2; reflexivity.
    + rewrite E. exact IH.
Qed.

Lemma dict_lookup_store_ne k k' v d :
  k <> k' -> dict_lookup k' (dict_store k v d) = dict_lookup k' d.
Proof.
  intros Hne. induction d as [|[k0 v0] d IH]; simpl.
  - rewrite bool_decide_eq_false_2 by exact Hne. reflexivity.
  - destruct (bool_decide (k0 = k)) eqn:E; simpl.
    + apply bool_decide_eq_true_1 in E. subst k0.
      rewrite !bool_decide_eq_false_2 by exact Hne. reflexivity.
    + rewrite IH. reflexivity.
Qed.

Lemma tag_first_object phrase d rest :
  invoke.tag_first (JList (JDict d :: rest)) phrase = Ok (tagged phrase d rest).
Proof. reflexivity. Qed.

(** A raising invocation ends the loop there and then. *)
Lemma make_predictions_raise phrase rest outputs c e :
  reply_at p c 0 phrase = Raise e ->
  invoke.make_predictions p (phrase :: rest) outputs c =
  (Raise e, tick_invoke c, [SmInvoke (endpoint_name p) (payload phrase)]).
Proof.
  unfold reply_at. rewrite Nat.add_0_r. intros Hreply.
  simpl. run. fold (payload phrase). rewrite Hreply. reflexivity.
Qed.

Lemma make_predictions_step phrase rest outputs c result result' :
  reply_at p c 0 phrase = Ok result ->
  invoke.tag_first result phrase = Ok result' ->
  invoke.make_predictions p (phrase :: rest) outputs c =
  (value (invoke.make_predictions p rest (outputs ++ [result']) (tick_invoke c)),
   final (invoke.make_predictions p rest (outputs ++ [result']) (tick_invoke c)),
   SmInvoke (endpoint_name p) (payload phrase) ::
   trace (invoke.make_predictions p rest (outputs ++ [result']) (tick_invoke c))).
Proof.
  unfold reply_at. rewrite Nat.add_0_r. intros Hreply Htag.
  simpl. run. fold (payload phrase). rewrite Hreply. simpl. rewrite Htag.
  destruct (invoke.make_predictions p rest (outputs ++ [result']) (tick_invoke c))
    as [[r c2] t2]. reflexivity.
Qed.

Lemma reply_at_tick c k phrase :
  reply_at p (tick_invoke c) k phrase = reply_at p c (S k) phrase.
Proof. unfold reply_at. simpl. f_equal. lia. Qed.

(** The loop after a first part of the inputs went through. *)
Lemma make_predictions_app inputs1 inputs2 outputs c outputs1 c1 t1 :
  invoke.make_predictions p inputs1 outputs c = (Ok outputs1, c1, t1) ->
  invoke.make_predictions p (inputs1 ++ inputs2) outputs c =
  (value (invoke.make_predictions p inputs2 outputs1 c1),
   final (invoke.make_predictions p inputs2 outputs1 c1),
   t1 ++ trace (invoke.make_predictions p inputs2 outputs1 c1)).
Proof.
  revert outputs c t1.
  induction inputs1 as [|phrase inputs1 IH]; intros outputs c t1 H.
  - simpl in H. run. simplify_eq. apply triple_eta.
  - destruct (reply_at p c 0 phrase) as [result|e] eqn:Hreply.
    2:{ rewrite (make_predictions_raise _ _ _ _ _ Hreply) in H. discriminate. }
    destruct (invoke.tag_first result phrase) as [result'|e] eqn:Htag.
    2:{ revert H. unfold reply_at in Hreply. rewrite Nat.add_0_r in Hreply.
        simpl. run. fold (payload phrase). rewrite Hreply. simpl.
        rewrite Htag. discriminate. }
    rewrite (make_predictions_step _ _ _ _ _ _ Hreply Htag) in H.
    simpl app.
    rewrite (make_predictions_step _ _ _ _ _ _ Hreply Htag).
    destruct (invoke.make_predictions p inputs1 (outputs ++ [result']) (tick_invoke c))
      as [[r c2] t2] eqn:Hrest.
    unfold value, final, trace in H. simpl in H. simplify_eq.
    rewrite (IH _ _ _ Hrest). reflexivity.
Qed.

(** When every reply is a non-empty list that starts with an object, the
    loop collects one output for each input, in order: the reply with its
    first entry tagged. *)
Lemma make_predictions_ok inputs outputs c :
  (forall k phrase, inputs !! k = Some phrase ->
     exists d rest, reply_at p c k phrase = Ok (JList (JDict d :: rest))) ->
  exists news t,
    invoke.make_predictions p inputs outputs c =
      (Ok (outputs ++ news), after_invocations (length inputs) c, t) /\
    Forall (fun ev => is_print ev = false) t /\
    length news = length inputs /\
    forall k phrase, inputs !! k = Some phrase ->
      exists d rest,
        reply_at p c k phrase = Ok (JList (JDict d :: rest)) /\
        news !! k = Some (tagged phrase d rest).
Proof.
  revert outputs c. induction inputs as [|phrase inputs IH]; intros outputs c Hall.
  - exists [], []. rewrite app_nil_r. repeat split; try constructor.
    intros k phrase H. discriminate.
  - destruct (Hall 0%nat phrase eq_refl) as (d & rest & Hreply).
    destruct (IH (outputs ++ [tagged phrase d rest]) (tick_invoke c))
      as (news & t & Hrun & Hquiet & Hlen & Hnews).
    { intros k x Hk. rewrite reply_at_tick. apply (Hall (S k)). exact Hk. }
    exists (tagged phrase d rest :: news),
      (SmInvoke (endpoint_name p) (payload phrase) :: t).
    rewrite (make_predictions_step _ _ _ _ _ _ Hreply (tag_first_object _ _ _)).
    rewrite Hrun. unfold value, final, trace. simpl.
    rewrite <- app_assoc. simpl. repeat split.
    + constructor; [reflexivity|exact Hquiet].
    + rewrite Hlen. reflexivity.
    + intros [|k] x Hk; simpl in Hk.
      * simplify_eq. exists d, rest. split; [exact Hreply|reflexivity].
      * destruct (Hnews k x Hk) as (d' & rest' & H1 & H2).
        exists d', rest'. rewrite <- reply_at_tick. split; assumption.
Qed.

End standalone_flow.

(* ===================================================================== *)
(** ** The role provisioner *)
(* ===================================================================== *)

Section role_provisioner.

Variable role_name : string.

Lemma sleeps_app t1 t2 : sleeps (t1 ++ t2) = sleeps t1 ++ sleeps t2.
Proof.
  induction t1 as [|ev t1 IH]; [reflexivity|].
  destruct ev; simpl; rewrite IH; reflexivity.
Qed.

Lemma attach_requests_app t1 t2 :
  attach_requests role_name (t1 ++ t2) =
  attach_requests role_name t1 ++ attach_requests role_name t2.
Proof.
  induction t1 as [|ev t1 IH]; [reflexivity|].
  destruct ev; simpl; try exact IH.
  destruct (bool_decide (RoleName = role_name)); simpl; rewrite IH; reflexivity.
Qed.

(** The role is new: it is created with the trust policy, and the step
    waits. *)
Lemma create_or_get_role_new c :
  iam_fault c (iam_requests c) = None ->
  roles c !! role_name = None ->
  create_or_get_role role_name c =
  (Ok (Arn (created_role c role_name)),
   set_roles (tick_iam c) (<[role_name := created_role c role_name]> (roles c)),
   [Print [Str "Creating IAM role: "; Str role_name];
    create_request role_name;
    Print [Str "✓ Created role: "; Str (Arn (created_role c role_name))];
    Sleep 10]).
Proof.
  intros Hfault Hnew. unfold create_or_get_role, iam_create_role, iam_request. run.
  rewrite Hfault, Hnew. reflexivity.
Qed.

(** The role exists: creation is refused, the refusal is caught and the
    role is fetched. *)
Lemma create_or_get_role_existing c r :
  iam_fault c (iam_requests c) = None ->
  iam_fault c (S (iam_requests c)) = None ->
  roles c !! role_name = Some r ->
  create_or_get_role role_name c =
  (Ok (Arn r), tick_iam (tick_iam c),
   [Print [Str "Creating IAM role: "; Str role_name];
    create_request role_name;
    Print [Str "Role "; Str role_name; Str " already exists, using existing role"];
    IamGetRole role_name]).
Proof.
  intros Hfault1 Hfault2 Hold.
  unfold create_or_get_role, iam_create_role, iam_get_role, iam_request. run.
  rewrite Hfault1, Hold. simpl. rewrite Hfault2, Hold. reflexivity.
Qed.

(** However the first [try] went, if it gave an identifier then the role
    exists under it. *)
Lemma create_or_get_role_Ok c arn c1 t1 :
  create_or_get_role role_name c = (Ok arn, c1, t1) ->
  has_role c1 role_name arn /\ iam_fault c1 = iam_fault c /\
  (iam_requests c <= iam_requests c1)%nat.
Proof.
  unfold create_or_get_role, iam_create_role, iam_get_role, iam_request. run.
  intros H. unfold has_role.
  repeat (case_match; simplify_eq/=);
    (repeat split; [|lia]);
    eexists; (split; [eassumption || apply lookup_insert_eq|reflexivity]).
Qed.

(** One turn of the loop over the policies: one request, one line, and no
    exception whatever the request's outcome. *)
Lemma attach_policy_run policy_arn c :
  exists c',
    attach_policy role_name policy_arn c =
      (Ok tt, c',
       [IamAttachRolePolicy role_name policy_arn;
        Print (attach_line policy_arn
                 (value (iam_attach_role_policy role_name policy_arn c)))]) /\
    iam_fault c' = iam_fault c /\
    iam_requests c' = S (iam_requests c) /\
    forall arn, has_role c role_name arn -> has_role c' role_name arn.
Proof.
  unfold attach_policy, iam_attach_role_policy, iam_request. run.
  repeat (case_match; simplify_eq/=);
    (eexists; split; [reflexivity|]; repeat split; try done).
  intros arn (r0 & Hr0 & Harn). simplify_eq. eexists.
  split; [apply lookup_insert_eq|reflexivity].
Qed.

Lemma attach_policies_run policies c :
  exists c' t,
    for_each (attach_policy role_name) policies c = (Ok tt, c', t) /\
    attach_requests role_name t = policies /\
    sleeps t = [] /\
    iam_fault c' = iam_fault c /\
    iam_requests c' = (iam_requests c + length policies)%nat /\
    forall arn, has_role c role_name arn -> has_role c' role_name arn.
Proof.
  revert c. induction policies as [|policy_arn policies IH]; intros c.
  - exists c, []. repeat split; simpl; auto.
  - destruct (attach_policy_run policy_arn c) as (c1 & Hrun & Hf1 & Hn1 & Hrole1).
    destruct (IH c1) as (c2 & t & Hrest & Hreq & Hsl & Hf2 & Hn2 & Hrole2).
    exists c2. eexists. rewrite run_for_each_cons.
    change (attach_policy role_name policy_arn;; ?k)
      with (attach_policy role_name policy_arn ≫= fun _ => k).
    rewrite (run_bind_Ok _ _ _ _ _ _ Hrun), Hrest. unfold value, final, trace.
    simpl. repeat split.
    + cbn [attach_requests]. case_bool_decide; [|done]. rewrite Hreq. reflexivity.
    + exact Hsl.
    + congruence.
    + rewrite Hn2, Hn1. simpl. lia.
    + auto.
Qed.

End role_provisioner.

(* ===================================================================== *)
(** ** Deployment and the workflow *)
(* ===================================================================== *)

Section workflow.

Lemma deploy_requests_app t1 t2 :
  deploy_requests (t1 ++ t2) = deploy_requests t1 ++ deploy_requests t2.
Proof.
  induction t1 as [|ev t1 IH]; [reflexivity|].
  destruct ev; simpl; rewrite IH; reflexivity.
Qed.

Lemma deploy_huggingface_model_run role_arn c :
  deploy_huggingface_model role_arn c =
  match deploy_outcome c (deployments c) (request_for role_arn) with
  | Ok generated =>
      (Ok {| endpoint_name := generated |}, tick_deploy c [generated],
       deploy_prelude ++
       [SmDeploy (request_for role_arn);
        Print [Str "✓ Model deployed successfully!"];
        Print [Str "✓ Endpoint name: "; Str generated]])
  | Raise e =>
      (Raise e, tick_deploy c [], deploy_prelude ++ [SmDeploy (request_for role_arn)])
  end.
Proof.
  unfold deploy_huggingface_model, banner, sm_deploy. fold (request_for role_arn).
  unfold mbind, M_bind, mret, M_ret, bind, ret, print, emit.
  destruct (deploy_outcome c (deployments c) (request_for role_arn)); reflexivity.
Qed.

Lemma run_try_Ok {A} (body : M A) clauses c a c1 t1 :
  body c = (Ok a, c1, t1) -> try_except body clauses c = (Ok a, c1, t1).
Proof. intros H. unfold try_except. rewrite H. reflexivity. Qed.

Lemma run_try_caught {A} (body : M A) clauses c e c1 t1 h :
  body c = (Raise e, c1, t1) ->
  select_handler clauses e = Some h ->
  try_except body clauses c = (value (h c1), final (h c1), t1 ++ trace (h c1)).
Proof.
  intros H Hh. unfold try_except. rewrite H, Hh.
  destruct (h c1) as [[r c2] t2]. reflexivity.
Qed.

(** [main] when the role is there and the deploy step raises. *)
Lemma main_deploy_raises c role_arn c1 t1 e c2 t2 :
  create_sagemaker_execution_role c = (Ok role_arn, c1, t1) ->
  deploy_huggingface_model role_arn c1 = (Raise e, c2, t2) ->
  main c =
  (Raise e, c2,
   main_header ++ t1 ++ Print (step2_line role_arn) :: t2 ++ failure_report e).
Proof.
  intros Hrole Hdeploy.
  assert (Hsteps : main_steps c =
    (Raise e, c2,
     Print [Str "Step 1: Creating SageMaker execution role..."] ::
     t1 ++ Print (step2_line role_arn) :: t2)).
  { unfold main_steps. rewrite run_print.
    rewrite (run_bind_Ok _ _ _ _ _ _ Hrole), run_print.
    rewrite (run_bind_Raise _ _ _ _ _ _ Hdeploy). reflexivity. }
  unfold main. rewrite !run_print.
  rewrite (run_try_caught _ _ _ _ _ _ (main_failed e) Hsteps) by reflexivity.
  unfold main_failed, value, final, trace. simpl.
  rewrite <- !app_assoc. reflexivity.
Qed.

End workflow.

(* ===================================================================== *)
(** ** The endpoint invoker: properties *)
(* ===================================================================== *)

Lemma make_predictions_quiet p inputs outputs c :
  Forall (fun ev => is_print ev = false)
    (trace (invoke.make_predictions p inputs outputs c)).
Proof.
  revert outputs c. induction inputs as [|phrase inputs IH]; intros outputs c.
  - constructor.
  - destruct (reply_at p c 0 phrase) as [result|e] eqn:Hreply.
    2:{ rewrite (make_predictions_raise _ _ _ _ _ _ Hreply).
        repeat constructor. }
    destruct (invoke.tag_first result phrase) as [result'|e] eqn:Htag.
    + rewrite (make_predictions_step _ _ _ _ _ _ _ Hreply Htag).
      constructor; [reflexivity|apply IH].
    + unfold reply_at in Hreply. rewrite Nat.add_0_r in Hreply.
      simpl. run. fold (payload phrase). rewrite Hreply. simpl. rewrite Htag.
      repeat constructor.
Qed.

Lemma reply_at_after p c k phrase :
  reply_at p c k phrase =
  endpoint_reply (after_invocations k c) (invocations (after_invocations k c))
    (endpoint_name p) (payload phrase).
Proof.
  unfold reply_at. rewrite endpoint_reply_after, invocations_after. reflexivity.
Qed.

(** X17.  In the in-deployment test flow an invocation error is
    isolated to its input: whatever the endpoint does, [test_endpoint] ends
    normally after invoking the endpoint once for every text; what it emits
    is, text after text, what the test of that text emits on its own; the
    report of a text whose invocation raises is the error line of that text;
    and the report of a text whose reply is a list starting with a
    label/score object is its text line and its sentiment line.  The
    standalone flow has no handler: when an invocation raises, the exception
    leaves the script, no later input is invoked and nothing is printed. *)
Theorem invocation_errors_by_flow (p : HuggingFacePredictor) (texts : list string)
    (c : cloud) :
  test_endpoint_on texts p c =
    (Ok tt, after_invocations (length texts) c,
     test_header ++
     concat (imap (fun k text => report p c k (1 + Z.of_nat k, text)%Z) texts))
  /\ (forall k text e,
        texts !! k = Some text ->
        reply_at p c k text = Raise e ->
        report p c k (1 + Z.of_nat k, text)%Z =
        [SmInvoke (endpoint_name p) (payload text);
         Print (error_line (1 + Z.of_nat k) e)])
  /\ (forall k text d rest label score,
        texts !! k = Some text ->
        reply_at p c k text = Ok (JList (JDict d :: rest)) ->
        dict_lookup "label" d = Some label ->
        dict_lookup "score" d = Some (JFloat score) ->
        report p c k (1 + Z.of_nat k, text)%Z =
        [SmInvoke (endpoint_name p) (payload text);
         Print (text_line (1 + Z.of_nat k) text);
         Print (sentiment_line label (JFloat score))])
  /\ (forall inputs1 phrase inputs2 outputs1 c1 t1 e,
        invoke.make_predictions invoke.predictor inputs1 [] c = (Ok outputs1, c1, t1) ->
        reply_at invoke.predictor c1 0 phrase = Raise e ->
        invoke.script_on (inputs1 ++ phrase :: inputs2) c =
          (Raise e, tick_invoke c1,
           t1 ++ [SmInvoke invoke.endpoint_name (payload phrase)])
        /\ Forall (fun ev => is_print ev = false) t1).
Proof.
  split; [rewrite test_endpoint_on_run, imap_enumerate; reflexivity|].
  split; [|split].
  - intros k text e _ Hreply. unfold report. simpl.
    rewrite reply_at_after in Hreply.
    rewrite (test_text_error _ _ _ _ _ Hreply). reflexivity.
  - intros k text d rest label score _ Hreply Hlabel Hscore. unfold report. simpl.
    rewrite reply_at_after in Hreply.
    rewrite (test_text_first_entry _ _ _ _ _ _ Hreply), Hlabel, Hscore. reflexivity.
  - intros inputs1 phrase inputs2 outputs1 c1 t1 e Hfirst Hreply. split.
    + unfold invoke.script_on.
      apply run_bind_Raise.
      rewrite (make_predictions_app _ _ _ _ _ _ _ _ Hfirst).
      rewrite (make_predictions_raise _ _ _ _ _ _ Hreply). reflexivity.
    + pose proof (make_predictions_quiet invoke.predictor inputs1 [] c) as Hq.
      rewrite Hfirst in Hq. exact Hq.
Qed.

(** X17 on a batch of three whose second invocation raises, in the test
    flow: texts 1 and 3 get their sentiment lines, text 2 its error line. *)
Lemma test_flow_isolates_second_of_three :
  test_endpoint_on ["one"; "two"; "three"] invoke.predictor flaky_endpoint_cloud =
  (Ok tt, after_invocations 3 flaky_endpoint_cloud,
   test_header ++
   [SmInvoke invoke.endpoint_name (payload "one");
    Print (text_line 1 "one");
    Print (sentiment_line (JStr "positive") (JFloat 0.87));
    SmInvoke invoke.endpoint_name (payload "two");
    Print (error_line 2 (ClientError "ModelError"));
    SmInvoke invoke.endpoint_name (payload "three");
    Print (text_line 3 "three");
    Print (sentiment_line (JStr "positive") (JFloat 0.87))]).
Proof.
  destruct (invocation_errors_by_flow invoke.predictor ["one"; "two"; "three"]
              flaky_endpoint_cloud) as (Hrun & _).
  rewrite Hrun. reflexivity.
Defined.

(** C1.  The standalone flow does not isolate an invocation error, as the
    loop of [test_endpoint] does for the same work: on the script's three
    inputs, when the second invocation raises, the script ends with that
    exception; its trace is the two invocations, without a printed line, so
    the result of the first input is lost and no failure is recorded, and
    the third input is never sent. *)
Lemma standalone_flow_stops_at_second_of_three :
  invoke.script flaky_endpoint_cloud =
  (Raise (ClientError "ModelError"),
   after_invocations 2 flaky_endpoint_cloud,
   [SmInvoke invoke.endpoint_name
      (payload "Hyperfine spiked 30% in the past day due to a new software release");
    SmInvoke invoke.endpoint_name
      (payload "GE stock price droped 20% last quarter due to waining demand for appliances")]).
Proof. reflexivity. Qed.

Lemma print_prediction_tagged phrase d rest label score c :
  dict_lookup "label" d = Some label ->
  dict_lookup "score" d = Some score ->
  invoke.print_prediction (tagged phrase d rest) c =
  (Ok tt, c,
   [Print [Str "Phrase: "; Val (JStr phrase); Str ", Score: "; Val score;
           Str ", Label: "; Val label]]).
Proof.
  intros Hlabel Hscore. unfold invoke.print_prediction, tagged. run.
  rewrite dict_lookup_store_eq. simpl.
  rewrite (dict_lookup_store_ne "phrase" "score") by discriminate.
  rewrite Hscore. simpl.
  rewrite (dict_lookup_store_ne "phrase" "label") by discriminate.
  rewrite Hlabel. reflexivity.
Qed.





(** C9.  In the test flow, when the first entry of the response is an
    object that lacks the label or the score, reading the two keys does not
    raise and neither does the test of the text: a missing label reads as
    ["Unknown"], a missing score as [0.0], a key that is there reads as its
    value.  The default score always formats, so an entry without a score
    gets its sentiment line; with a score that is there, the line is
    printed when that score formats (when it is a number). *)
Theorem missing_keys_take_defaults (p : HuggingFacePredictor) (i : Z)
    (text : string) (d : list (string * json)) (rest : list json) (c : cloud) :
  endpoint_reply c (invocations c) (endpoint_name p) (payload text)
    = Ok (JList (JDict d :: rest)) ->
  dict_lookup "label" d = None \/ dict_lookup "score" d = None ->
  exists label score,
    py_get (JDict d) "label" (JStr "Unknown") = Ok label
    /\ py_get (JDict d) "score" (JFloat 0.0) = Ok score
    /\ (dict_lookup "label" d = None -> label = JStr "Unknown")
    /\ (dict_lookup "score" d = None -> score = JFloat 0.0)
    /\ (forall l, dict_lookup "label" d = Some l -> label = l)
    /\ (forall s, dict_lookup "score" d = Some s -> score = s)
    /\ value (test_text p i text c) = Ok tt
    /\ (dict_lookup "score" d = None -> is_Ok (format_3f_check score) = true)
    /\ (is_Ok (format_3f_check score) = true ->
          test_text p i text c =
            (Ok tt, tick_invoke c,
             [SmInvoke (endpoint_name p) (payload text);
              Print (text_line i text);
              Print (sentiment_line label score)])).
Proof.
  intros Hreply _.
  exists (default (JStr "Unknown") (dict_lookup "label" d)),
         (default (JFloat 0.0) (dict_lookup "score" d)).
  split; [reflexivity|]. split; [reflexivity|].
  split; [intros ->; reflexivity|]. split; [intros ->; reflexivity|].
  split; [intros l ->; reflexivity|]. split; [intros s ->; reflexivity|].
  split; [|split].
  - destruct (test_text_total p i text c) as [t ->]. reflexivity.
  - intros ->. reflexivity.
  - intros Hfmt. rewrite (test_text_first_entry _ _ _ _ _ _ Hreply).
    destruct (format_3f_check _) as [s'|e] eqn:Hs; [|discriminate].
    rewrite (format_3f_check_Ok _ _ Hs). reflexivity.
Qed.

(** C9 on an endpoint whose entries have neither key. *)
Lemma missing_keys_take_defaults_bare :
  exists label score,
    test_text invoke.predictor 1 "Linkedin subscriptions up 30%" bare_endpoint_cloud =
      (Ok tt, tick_invoke bare_endpoint_cloud,
       [SmInvoke invoke.endpoint_name (payload "Linkedin subscriptions up 30%");
        Print (text_line 1 "Linkedin subscriptions up 30%");
        Print (sentiment_line label score)])
    /\ label = JStr "Unknown" /\ score = JFloat 0.0.
Proof.
  destruct (missing_keys_take_defaults invoke.predictor 1
              "Linkedin subscriptions up 30%" [] [] bare_endpoint_cloud eq_refl
              (or_introl eq_refl))
    as (label & score & _ & _ & Hl & Hs & _ & _ & _ & Hfmt & Hrun).
  exists label, score. split; [exact (Hrun (Hfmt eq_refl))|].
  split; [apply Hl|apply Hs]; reflexivity.
Defined.

(** The statement [result[0]["phrase"] = phrase] goes through for one shape
    of response only. *)
Lemma tag_first_Ok result phrase result' :
  invoke.tag_first result phrase = Ok result' ->
  exists d rest, result = JList (JDict d :: rest).
Proof.
  unfold invoke.tag_first. destruct result as [| | | |s|[|first l]|]; simpl;
    try discriminate.
  - destruct (String.get 0 s); discriminate.
  - destruct first; simpl; try discriminate. eauto.
Qed.

(** When the loop ends normally, every reply had that shape. *)
Lemma make_predictions_Ok_shape p inputs outputs c outputs' c' t :
  invoke.make_predictions p inputs outputs c = (Ok outputs', c', t) ->
  forall k phrase, inputs !! k = Some phrase ->
    exists d rest, reply_at p c k phrase = Ok (JList (JDict d :: rest)).
Proof.
  revert outputs c t. induction inputs as [|x inputs IH]; intros outputs c t Hrun k phrase Hk.
  { discriminate. }
  destruct (reply_at p c 0 x) as [result|e] eqn:Hreply.
  2:{ rewrite (make_predictions_raise _ _ _ _ _ _ Hreply) in Hrun. discriminate. }
  destruct (invoke.tag_first result x) as [result'|e] eqn:Htag.
  2:{ revert Hrun. unfold reply_at in Hreply. rewrite Nat.add_0_r in Hreply.
      simpl. run. fold (payload x). rewrite Hreply. simpl. rewrite Htag.
      discriminate. }
  destruct (tag_first_Ok _ _ _ Htag) as (d & rest & ->).
  destruct k as [|k]; simpl in Hk.
  - simplify_eq. eauto.
  - rewrite (make_predictions_step _ _ _ _ _ _ _ Hreply Htag) in Hrun.
    destruct (invoke.make_predictions p inputs (outputs ++ [result']) (tick_invoke c))
      as [[r c2] t2] eqn:Hrest.
    unfold value, final, trace in Hrun. simpl in Hrun. simplify_eq.
    rewrite <- reply_at_tick. exact (IH _ _ _ Hrest k phrase Hk).
Qed.

(** C10.  In the standalone flow, when every prediction succeeds, that is,
    when the prediction loop ends normally, it has collected one output for
    each input, in the order of the inputs: the [k]-th output is the reply
    to the [k]-th input, and its first entry has the field ["phrase"] set
    to that input, its other fields being as in the reply.  The loop does
    end normally when every reply is a non-empty list whose first entry is
    an object. *)
Theorem outputs_follow_inputs (inputs : list string) (c : cloud) :
  (forall outputs c' t,
     invoke.make_predictions invoke.predictor inputs [] c = (Ok outputs, c', t) ->
     length outputs = length inputs
     /\ forall k phrase, inputs !! k = Some phrase ->
          exists d rest first,
            reply_at invoke.predictor c k phrase = Ok (JList (JDict d :: rest))
            /\ outputs !! k = Some (JList (first :: rest))
            /\ first = JDict (dict_store "phrase" (JStr phrase) d)
            /\ py_getitem first "phrase" = Ok (JStr phrase)
            /\ forall key, key <> "phrase" ->
                 py_getitem first key = py_getitem (JDict d) key)
  /\ ((forall k phrase, inputs !! k = Some phrase ->
         exists d rest,
           reply_at invoke.predictor c k phrase = Ok (JList (JDict d :: rest))) ->
      exists outputs t,
        invoke.make_predictions invoke.predictor inputs [] c =
          (Ok outputs, after_invocations (length inputs) c, t)).
Proof.
  split.
  - intros outputs c' t Hrun.
    destruct (make_predictions_ok invoke.predictor inputs [] c
                (make_predictions_Ok_shape _ _ _ _ _ _ _ Hrun))
      as (news & t' & Hrun' & _ & Hlen & Hnews).
    rewrite Hrun in Hrun'. simpl in Hrun'. simplify_eq.
    split; [exact Hlen|].
    intros k phrase Hk.
    destruct (Hnews k phrase Hk) as (d & rest & Hreply & Hout).
    exists d, rest, (JDict (dict_store "phrase" (JStr phrase) d)).
    split; [exact Hreply|]. split; [exact Hout|]. split; [reflexivity|].
    split.
    + simpl. rewrite dict_lookup_store_eq. reflexivity.
    + intros key Hkey. simpl. rewrite dict_lookup_store_ne by congruence. reflexivity.
  - intros Hall.
    destruct (make_predictions_ok invoke.predictor inputs [] c Hall)
      as (news & t & Hrun & _).
    exists news, t. exact Hrun.
Qed.

(** C10 on the script's own inputs, every reply being [canned]. *)
Lemma outputs_follow_inputs_canned :
  exists outputs t,
    invoke.make_predictions invoke.predictor invoke.inputs [] quiet_cloud =
      (Ok outputs, after_invocations 3 quiet_cloud, t)
    /\ length outputs = 3%nat
    /\ exists first,
         outputs !! 2%nat = Some (JList [first])
         /\ py_getitem first "phrase" = Ok (JStr "Linkedin subscriptions up 30%")
         /\ py_getitem first "label" = Ok (JStr "positive").
Proof.
  destruct (outputs_follow_inputs invoke.inputs quiet_cloud) as [Hright Hruns].
  destruct Hruns as (outputs & t & Hrun).
  - intros [|[|[|k]]] phrase Hk; simplify_eq/=;
      exists [("label", JStr "positive"); ("score", JFloat 0.87)], []; reflexivity.
  - destruct (Hright _ _ _ Hrun) as [Hlen Hout].
    exists outputs, t. split; [exact Hrun|]. split; [exact Hlen|].
    destruct (Hout 2%nat "Linkedin subscriptions up 30%" eq_refl)
      as (d & rest & first & Hreply & Hk & _ & Hphrase & Hother).
    injection Hreply as <- <-.
    exists first. split; [exact Hk|]. split; [exact Hphrase|].
    rewrite Hother by discriminate. reflexivity.
Defined.

(* ===================================================================== *)
(** ** The role provisioner: properties *)
(* ===================================================================== *)

Section role_step.

Variable role_name : string.

(** The step is its first [try], then the loop, then [return role_arn]. *)
Lemma role_step_run c arn c1 t1 :
  create_or_get_role role_name c = (Ok arn, c1, t1) ->
  exists c2 t2,
    create_sagemaker_execution_role_named role_name c = (Ok arn, c2, t1 ++ t2) /\
    attach_requests role_name t2 = required_policies /\
    sleeps t2 = [] /\
    iam_fault c2 = iam_fault c1 /\
    (iam_requests c1 <= iam_requests c2)%nat /\
    forall arn', has_role c1 role_name arn' -> has_role c2 role_name arn'.
Proof.
  intros Hfirst.
  destruct (attach_policies_run role_name required_policies c1)
    as (c2 & t2 & Hloop & Hreq & Hsl & Hf & Hn & Hrole).
  exists c2, t2. unfold create_sagemaker_execution_role_named.
  rewrite (run_bind_Ok _ _ _ _ _ _ Hfirst).
  change (for_each ?b ?l;; ?k) with (for_each b l ≫= fun _ => k).
  rewrite (run_bind_Ok _ _ _ _ _ _ Hloop). unfold value, final, trace. simpl.
  rewrite app_nil_r. repeat split; try assumption. lia.
Qed.

Lemma role_step_raise c e c1 t1 :
  create_or_get_role role_name c = (Raise e, c1, t1) ->
  create_sagemaker_execution_role_named role_name c = (Raise e, c1, t1).
Proof. intros Hfirst. apply run_bind_Raise. exact Hfirst. Qed.

(** If the step gives an identifier, the role exists under it afterwards. *)
Lemma role_step_Ok c arn c1 t1 :
  create_sagemaker_execution_role_named role_name c = (Ok arn, c1, t1) ->
  has_role c1 role_name arn /\ iam_fault c1 = iam_fault c /\
  (iam_requests c <= iam_requests c1)%nat.
Proof.
  intros Hrun.
  destruct (create_or_get_role role_name c) as [[[arn0|e] c0] t0] eqn:Hfirst.
  - destruct (create_or_get_role_Ok _ _ _ _ _ Hfirst) as (Hrole & Hf & Hn).
    destruct (role_step_run _ _ _ _ Hfirst) as (c2 & t2 & Hrun' & _ & _ & Hf2 & Hn2 & Hkeep).
    rewrite Hrun in Hrun'. simplify_eq. repeat split; [auto|congruence|lia].
  - rewrite (role_step_raise _ _ _ _ Hfirst) in Hrun. discriminate.
Qed.

(** With the role in place and IAM serving, the step fetches the role and
    returns its identifier, without waiting. *)
Lemma role_step_again c arn :
  has_role c role_name arn ->
  fault_free c ->
  exists c2 t2,
    create_sagemaker_execution_role_named role_name c =
      (Ok arn, c2,
       [Print [Str "Creating IAM role: "; Str role_name];
        create_request role_name;
        Print [Str "Role "; Str role_name; Str " already exists, using existing role"];
        IamGetRole role_name] ++ t2) /\
    attach_requests role_name t2 = required_policies /\
    sleeps t2 = [] /\
    has_role c2 role_name arn.
Proof.
  intros (r & Hr & <-) Hserve.
  assert (Hfirst := create_or_get_role_existing role_name c r
                      (Hserve _ (Nat.le_refl _)) (Hserve _ (Nat.le_succ_diag_r _)) Hr).
  destruct (role_step_run _ _ _ _ Hfirst) as (c2 & t2 & Hrun & Hreq & Hsl & _ & _ & Hkeep).
  exists c2, t2. repeat split; try assumption.
  apply Hkeep. exists r. split; [exact Hr|reflexivity].
Qed.

Lemma role_step_serves c :
  fault_free c ->
  exists arn c1 t1,
    create_sagemaker_execution_role_named role_name c = (Ok arn, c1, t1).
Proof.
  intros Hserve.
  destruct (roles c !! role_name) as [r|] eqn:Hr.
  - destruct (role_step_again c (Arn r)) as (c2 & t2 & Hrun & _); [|exact Hserve|eauto].
    exists r. split; [exact Hr|reflexivity].
  - assert (Hfirst := create_or_get_role_new role_name c (Hserve _ (Nat.le_refl _)) Hr).
    destruct (role_step_run _ _ _ _ Hfirst) as (c2 & t2 & Hrun & _). eauto.
Qed.

Lemma fault_free_later c c1 :
  iam_fault c1 = iam_fault c ->
  (iam_requests c <= iam_requests c1)%nat ->
  fault_free c -> fault_free c1.
Proof. intros Hf Hn Hserve n Hle. rewrite Hf. apply Hserve. lia. Qed.

End role_step.

(** C2.  With IAM serving its requests, calling the provisioning step twice
    with the same role name gives the same role identifier both times, and
    neither call raises: in the second call the creation is refused for the
    name being taken, the refusal is caught, the existing role is fetched
    and its identifier is returned (and the step does not wait). *)
Theorem role_step_is_idempotent (role_name : string) (c : cloud) :
  fault_free c ->
  exists arn c1 t1 c2 t2,
    create_sagemaker_execution_role_named role_name c = (Ok arn, c1, t1)
    /\ has_role c1 role_name arn
    /\ create_sagemaker_execution_role_named role_name c1 =
         (Ok arn, c2,
          [Print [Str "Creating IAM role: "; Str role_name];
           create_request role_name;
           Print [Str "Role "; Str role_name; Str " already exists, using existing role"];
           IamGetRole role_name] ++ t2)
    /\ attach_requests role_name t2 = required_policies
    /\ sleeps t2 = []
    /\ has_role c2 role_name arn.
Proof.
  intros Hserve.
  destruct (role_step_serves role_name c Hserve) as (arn & c1 & t1 & Hrun1).
  destruct (role_step_Ok _ _ _ _ _ Hrun1) as (Hrole & Hf & Hn).
  destruct (role_step_again role_name c1 arn Hrole
              (fault_free_later _ _ Hf Hn Hserve))
    as (c2 & t2 & Hrun2 & Hreq & Hsl & Hrole2).
  exists arn, c1, t1, c2, t2. repeat split; assumption.
Qed.

(** C2 on an account without roles. *)
Lemma role_step_is_idempotent_fresh :
  exists arn c1 t1 c2 t2,
    create_sagemaker_execution_role quiet_cloud = (Ok arn, c1, t1)
    /\ has_role c1 "SageMakerExecutionRole" arn
    /\ create_sagemaker_execution_role c1 =
         (Ok arn, c2,
          [Print [Str "Creating IAM role: "; Str "SageMakerExecutionRole"];
           create_request "SageMakerExecutionRole";
           Print [Str "Role "; Str "SageMakerExecutionRole";
                  Str " already exists, using existing role"];
           IamGetRole "SageMakerExecutionRole"] ++ t2)
    /\ attach_requests "SageMakerExecutionRole" t2 = required_policies
    /\ sleeps t2 = []
    /\ has_role c2 "SageMakerExecutionRole" arn.
Proof.
  apply (role_step_is_idempotent "SageMakerExecutionRole" quiet_cloud).
  intros n _. reflexivity.
Defined.

(** X18.  Once the first [try] of the provisioning step has given the role
    identifier, the step returns that identifier whatever the attachments
    do: it asks IAM to attach every required policy, in order; each turn of
    the loop ends normally and prints one line for its request, which says
    the policy is attached when the request succeeds, that it is attached
    already when the request fails for an exceeded limit (the failure the
    script reads as attached already), and is a warning with the error for
    any other failure, after which the loop goes on. *)
Theorem attachment_failures_are_not_fatal (role_name arn : string)
    (c c1 : cloud) (t1 : list event) :
  create_or_get_role role_name c = (Ok arn, c1, t1) ->
  (exists c2 t2,
     create_sagemaker_execution_role_named role_name c = (Ok arn, c2, t1 ++ t2)
     /\ attach_requests role_name t2 = required_policies
     /\ has_role c2 role_name arn)
  /\ (forall policy_arn ca, exists cb,
        attach_policy role_name policy_arn ca =
          (Ok tt, cb,
           [IamAttachRolePolicy role_name policy_arn;
            Print (attach_line policy_arn
                     (value (iam_attach_role_policy role_name policy_arn ca)))]))
  /\ (forall policy_arn,
        attach_line policy_arn (Ok tt) = [Str "✓ Attached policy: "; Str policy_arn]
        /\ attach_line policy_arn (Raise LimitExceededException) =
             [Str "Policy already attached: "; Str policy_arn]
        /\ forall e, is_LimitExceeded e = false ->
             attach_line policy_arn (Raise e) =
               [Str "Warning: Could not attach policy "; Str policy_arn;
                Str ": "; ExnMsg e]).
Proof.
  intros Hfirst. split; [|split].
  - destruct (role_step_run _ _ _ _ _ Hfirst)
      as (c2 & t2 & Hrun & Hreq & _ & _ & _ & Hkeep).
    exists c2, t2. repeat split; [exact Hrun|exact Hreq|].
    apply Hkeep. apply (create_or_get_role_Ok _ _ _ _ _ Hfirst).
  - intros policy_arn ca.
    destruct (attach_policy_run role_name policy_arn ca) as (cb & Hrun & _).
    exists cb. exact Hrun.
  - intros policy_arn. repeat split.
    intros e He. unfold attach_line. rewrite He. reflexivity.
Qed.

(** X18 on an account where the second attachment is denied and the third
    exceeds the limit: the step still returns the identifier of the role it
    created, having asked for the three policies. *)
Lemma attachment_failures_are_not_fatal_strict :
  exists c2 t2,
    create_sagemaker_execution_role strict_iam_cloud =
      (Ok "arn:aws:iam::123456789012:role/SageMakerExecutionRole", c2,
       [Print [Str "Creating IAM role: "; Str "SageMakerExecutionRole"];
        create_request "SageMakerExecutionRole";
        Print [Str "✓ Created role: ";
               Str "arn:aws:iam::123456789012:role/SageMakerExecutionRole"];
        Sleep 10] ++ t2)
    /\ attach_requests "SageMakerExecutionRole" t2 = required_policies
    /\ has_role c2 "SageMakerExecutionRole"
         "arn:aws:iam::123456789012:role/SageMakerExecutionRole".
Proof.
  exact (proj1 (attachment_failures_are_not_fatal "SageMakerExecutionRole"
                  "arn:aws:iam::123456789012:role/SageMakerExecutionRole"
                  strict_iam_cloud
                  (set_roles (tick_iam strict_iam_cloud)
                     (<["SageMakerExecutionRole" :=
                          created_role strict_iam_cloud "SageMakerExecutionRole"]>
                        (roles strict_iam_cloud)))
                  _ eq_refl)).
Defined.

(** What the step prints on that account: the first policy is attached,
    the second is denied and gives a warning, the third exceeds the limit. *)
Lemma attachment_lines_strict :
  filter (fun ev => is_print ev = true)
    (trace (create_sagemaker_execution_role strict_iam_cloud)) =
  [Print [Str "Creating IAM role: "; Str "SageMakerExecutionRole"];
   Print [Str "✓ Created role: ";
          Str "arn:aws:iam::123456789012:role/SageMakerExecutionRole"];
   Print [Str "✓ Attached policy: ";
          Str "arn:aws:iam::aws:policy/AmazonSageMakerFullAccess"];
   Print [Str "Warning: Could not attach policy ";
          Str "arn:aws:iam::aws:policy/AmazonS3FullAccess";
          Str ": "; ExnMsg (ClientError "AccessDenied")];
   Print [Str "Policy already attached: ";
          Str "arn:aws:iam::aws:policy/AmazonEC2ContainerRegistryReadOnly"]].
Proof. vm_compute. reflexivity. Qed.

(** A policy that is attached already: the request succeeds and the loop
    prints that the policy is attached. *)
Lemma attached_policy_attaches_again role_name policy_arn r c :
  iam_fault c (iam_requests c) = None ->
  roles c !! role_name = Some r ->
  policy_arn ∈ attached r ->
  attach_policy role_name policy_arn c =
    (Ok tt, tick_iam c,
     [IamAttachRolePolicy role_name policy_arn;
      Print [Str "✓ Attached policy: "; Str policy_arn]]).
Proof.
  intros Hfault Hrole Hin.
  unfold attach_policy, iam_attach_role_policy, iam_request. run.
  rewrite Hfault. simpl. rewrite Hrole.
  rewrite bool_decide_eq_true_2 by exact Hin. reflexivity.
Qed.

(** C4.  The claim fails where an attachment fails for an exceeded limit.
    When IAM serves the request, the policy is not attached to the role and
    the role is at its quota, [attach_role_policy] raises
    LimitExceededException; the loop takes it for the policy being attached
    already: it prints that line, gives no warning, and the policy stays
    off the role.  (A policy that is attached already makes the request
    succeed, see [attached_policy_attaches_again], so that clause never
    meets the condition it names.) *)
Theorem exceeded_limit_is_printed_as_attached (role_name policy_arn : string)
    (r : iam_role) (c : cloud) :
  iam_fault c (iam_requests c) = None ->
  roles c !! role_name = Some r ->
  policy_arn ∉ attached r ->
  (policy_quota c <= length (attached r))%nat ->
  value (iam_attach_role_policy role_name policy_arn c) = Raise LimitExceededException
  /\ attach_policy role_name policy_arn c =
       (Ok tt, tick_iam c,
        [IamAttachRolePolicy role_name policy_arn;
         Print [Str "Policy already attached: "; Str policy_arn]])
  /\ roles (final (attach_policy role_name policy_arn c)) !! role_name = Some r.
Proof.
  intros Hfault Hrole Hnot Hfull.
  assert (Hrequest :
    iam_attach_role_policy role_name policy_arn c =
    (Raise LimitExceededException, tick_iam c,
     [IamAttachRolePolicy role_name policy_arn])).
  { unfold iam_attach_role_policy, iam_request. rewrite Hfault. simpl.
    rewrite Hrole. rewrite bool_decide_eq_false_2 by exact Hnot.
    rewrite bool_decide_eq_true_2 by exact Hfull. reflexivity. }
  assert (Hturn :
    attach_policy role_name policy_arn c =
    (Ok tt, tick_iam c,
     [IamAttachRolePolicy role_name policy_arn;
      Print [Str "Policy already attached: "; Str policy_arn]])).
  { unfold attach_policy.
    change (iam_attach_role_policy ?a ?b;; ?k)
      with (iam_attach_role_policy a b ≫= fun _ => k).
    rewrite (run_try_caught _ _ _ _ _ _
               (print [Str "Policy already attached: "; Str policy_arn])
               (run_bind_Raise _ _ _ _ _ _ Hrequest)) by reflexivity.
    reflexivity. }
  split_and!.
  - rewrite Hrequest. reflexivity.
  - exact Hturn.
  - rewrite Hturn. exact Hrole.
Qed.

(** C4 on the role the provisioning step leaves on an account that allows
    one policy per role: the role holds its first policy, and the second
    cannot be attached. *)
Lemma exceeded_limit_is_printed_as_attached_strict :
  value (iam_attach_role_policy "SageMakerExecutionRole"
           "arn:aws:iam::aws:policy/AmazonS3FullAccess"
           (final (create_sagemaker_execution_role strict_iam_cloud)))
    = Raise LimitExceededException
  /\ trace (attach_policy "SageMakerExecutionRole"
              "arn:aws:iam::aws:policy/AmazonS3FullAccess"
              (final (create_sagemaker_execution_role strict_iam_cloud))) =
       [IamAttachRolePolicy "SageMakerExecutionRole"
          "arn:aws:iam::aws:policy/AmazonS3FullAccess";
        Print [Str "Policy already attached: ";
               Str "arn:aws:iam::aws:policy/AmazonS3FullAccess"]]
  /\ roles (final (attach_policy "SageMakerExecutionRole"
                     "arn:aws:iam::aws:policy/AmazonS3FullAccess"
                     (final (create_sagemaker_execution_role strict_iam_cloud))))
        !! "SageMakerExecutionRole" =
       Some {| Arn := "arn:aws:iam::123456789012:role/SageMakerExecutionRole";
               trust := trust_policy;
               attached := ["arn:aws:iam::aws:policy/AmazonSageMakerFullAccess"] |}.
Proof.
  destruct (exceeded_limit_is_printed_as_attached "SageMakerExecutionRole"
              "arn:aws:iam::aws:policy/AmazonS3FullAccess"
              {| Arn := "arn:aws:iam::123456789012:role/SageMakerExecutionRole";
                 trust := trust_policy;
                 attached := ["arn:aws:iam::aws:policy/AmazonSageMakerFullAccess"] |}
              (final (create_sagemaker_execution_role strict_iam_cloud)))
    as (Hrequest & Hturn & Hrole).
  - vm_compute. reflexivity.
  - vm_compute. reflexivity.
  - intros Hin. apply list_elem_of_singleton in Hin. discriminate Hin.
  - vm_compute. lia.
  - split_and!; [exact Hrequest|rewrite Hturn; reflexivity|exact Hrole].
Defined.

Lemma sleeps_create_or_get_role role_name c :
  sleeps (trace (create_or_get_role role_name c)) =
  if creates_role c role_name then [10%Z] else [].
Proof.
  unfold creates_role, create_or_get_role, iam_create_role, iam_get_role, iam_request.
  run. repeat (case_match; simplify_eq/=); reflexivity.
Qed.

Lemma creates_role_true c role_name :
  creates_role c role_name = true ->
  iam_fault c (iam_requests c) = None /\ roles c !! role_name = None.
Proof.
  unfold creates_role. repeat case_match; try discriminate. split; reflexivity.
Qed.

(** C7.  The provisioning step waits exactly when it creates the role: its
    sleeps are one sleep of 10 seconds when [create_role] creates the role,
    and none otherwise.  When the role is created, it is created with the
    trust policy and the wait follows the creation.  When the role exists
    (IAM serving both requests), the existing identifier is fetched and
    there is no wait. *)
Theorem wait_exactly_on_creation (role_name : string) (c : cloud) :
  sleeps (trace (create_sagemaker_execution_role_named role_name c)) =
    (if creates_role c role_name then [10%Z] else [])
  /\ (creates_role c role_name = true ->
        create_or_get_role role_name c =
          (Ok (Arn (created_role c role_name)),
           set_roles (tick_iam c) (<[role_name := created_role c role_name]> (roles c)),
           [Print [Str "Creating IAM role: "; Str role_name];
            IamCreateRole role_name trust_policy
              "SageMaker execution role for model deployment" "/";
            Print [Str "✓ Created role: "; Str (Arn (created_role c role_name))];
            Sleep 10])
        /\ trust (created_role c role_name) = trust_policy)
  /\ (forall r,
        roles c !! role_name = Some r ->
        iam_fault c (iam_requests c) = None ->
        iam_fault c (S (iam_requests c)) = None ->
        creates_role c role_name = false
        /\ create_or_get_role role_name c =
             (Ok (Arn r), tick_iam (tick_iam c),
              [Print [Str "Creating IAM role: "; Str role_name];
               IamCreateRole role_name trust_policy
                 "SageMaker execution role for model deployment" "/";
               Print [Str "Role "; Str role_name;
                      Str " already exists, using existing role"];
               IamGetRole role_name])).
Proof.
  split; [|split].
  - rewrite <- sleeps_create_or_get_role.
    destruct (create_or_get_role role_name c) as [[[arn|e] c1] t1] eqn:Hfirst.
    + destruct (role_step_run _ _ _ _ _ Hfirst) as (c2 & t2 & Hrun & _ & Hsl & _).
      rewrite Hrun. unfold trace. simpl. rewrite sleeps_app, Hsl, app_nil_r.
      reflexivity.
    + rewrite (role_step_raise _ _ _ _ _ Hfirst). reflexivity.
  - intros Hcreates. apply creates_role_true in Hcreates as [Hfault Hnew].
    split; [|reflexivity]. apply create_or_get_role_new; assumption.
  - intros r Hr Hfault1 Hfault2. split.
    + unfold creates_role. rewrite Hfault1, Hr. reflexivity.
    + apply create_or_get_role_existing; assumption.
Qed.

(** C7 on an account without the role, and on the same account once the
    step has run: one wait the first time, none the second. *)
Lemma wait_exactly_on_creation_twice :
  sleeps (trace (create_sagemaker_execution_role quiet_cloud)) = [10%Z]
  /\ sleeps (trace (create_sagemaker_execution_role provisioned_cloud)) = [].
Proof.
  split.
  - exact (proj1 (wait_exactly_on_creation "SageMakerExecutionRole" quiet_cloud)).
  - exact (proj1 (wait_exactly_on_creation "SageMakerExecutionRole" provisioned_cloud)).
Defined.

(* ===================================================================== *)
(** ** Deployment and the workflow: properties *)
(* ===================================================================== *)

(** C5.  A deployment error is fatal to the workflow.  When the role is
    there and the deployment fails with [e], [deploy_huggingface_model]
    raises [e] after its single request; [main] prints its failure report
    and raises [e] again, and so does the script.  After the role step the
    workflow makes one deployment request and no request to IAM, and the
    role is left as it was. *)
Theorem deployment_error_is_fatal (c c1 : cloud) (role_arn : string)
    (t1 : list event) (e : exn) :
  create_sagemaker_execution_role c = (Ok role_arn, c1, t1) ->
  deploy_outcome c1 (deployments c1) (request_for role_arn) = Raise e ->
  deploy_huggingface_model role_arn c1 =
    (Raise e, tick_deploy c1 [], deploy_prelude ++ [SmDeploy (request_for role_arn)])
  /\ main c =
       (Raise e, tick_deploy c1 [],
        main_header ++ t1 ++
        Print (step2_line role_arn) ::
        (deploy_prelude ++ [SmDeploy (request_for role_arn)]) ++ failure_report e)
  /\ finbert c = main c
  /\ roles (final (main c)) = roles c1
  /\ has_role (final (main c)) "SageMakerExecutionRole" role_arn
  /\ deployments (final (main c)) = S (deployments c1)
  /\ endpoints (final (main c)) = endpoints c1.
Proof.
  intros Hrole Hfail.
  assert (Hdeploy : deploy_huggingface_model role_arn c1 =
    (Raise e, tick_deploy c1 [], deploy_prelude ++ [SmDeploy (request_for role_arn)]))
    by (rewrite deploy_huggingface_model_run, Hfail; reflexivity).
  assert (Hmain := main_deploy_raises _ _ _ _ _ _ _ Hrole Hdeploy).
  split; [exact Hdeploy|]. split; [exact Hmain|]. split.
  { unfold finbert. rewrite (run_bind_Raise _ _ _ _ _ _ Hmain). symmetry. exact Hmain. }
  rewrite Hmain. unfold final. simpl. repeat split.
  - apply (role_step_Ok _ _ _ _ _ Hrole).
  - apply app_nil_r.
Qed.

(** C5 on an account where deployments fail. *)
Lemma deployment_error_is_fatal_example :
  value (main failed_deploy_cloud) = Raise (ClientError "ResourceLimitExceeded")
  /\ value (finbert failed_deploy_cloud) = Raise (ClientError "ResourceLimitExceeded")
  /\ deploy_requests (trace (main failed_deploy_cloud)) =
       [request_for "arn:aws:iam::123456789012:role/SageMakerExecutionRole"]
  /\ has_role (final (main failed_deploy_cloud)) "SageMakerExecutionRole"
       "arn:aws:iam::123456789012:role/SageMakerExecutionRole".
Proof.
  assert (Hrole : create_sagemaker_execution_role failed_deploy_cloud =
            (Ok "arn:aws:iam::123456789012:role/SageMakerExecutionRole",
             final (create_sagemaker_execution_role failed_deploy_cloud),
             trace (create_sagemaker_execution_role failed_deploy_cloud)))
    by (vm_compute; reflexivity).
  destruct (deployment_error_is_fatal failed_deploy_cloud _ _ _
              (ClientError "ResourceLimitExceeded") Hrole)
    as (_ & Hmain & Hscript & _ & Hhas & _); [vm_compute; reflexivity|].
  split; [rewrite Hmain; reflexivity|].
  split; [rewrite Hscript, Hmain; reflexivity|].
  split; [vm_compute; reflexivity|exact Hhas].
Defined.

(** The workflow when the role step and the deployment go well: [main]
    returns the predictor the deployment gave, whatever the endpoint answers
    to the test texts. *)
Lemma main_returns_the_predictor c role_arn c1 t1 generated :
  create_sagemaker_execution_role c = (Ok role_arn, c1, t1) ->
  deploy_outcome c1 (deployments c1) (request_for role_arn) = Ok generated ->
  value (main c) = Ok {| endpoint_name := generated |}
  /\ value (finbert c) = Ok {| endpoint_name := generated |}
  /\ final (main c) =
       after_invocations (length test_texts) (tick_deploy c1 [generated]).
Proof.
  intros Hrole Hgen.
  assert (Hdeploy := deploy_huggingface_model_run role_arn c1).
  rewrite Hgen in Hdeploy.
  assert (Htest := test_endpoint_on_run {| endpoint_name := generated |} test_texts
                     (tick_deploy c1 [generated])).
  fold (test_endpoint {| endpoint_name := generated |}) in Htest.
  assert (Hsteps : value (main_steps c) = Ok {| endpoint_name := generated |}
                   /\ final (main_steps c) =
                        after_invocations (length test_texts) (tick_deploy c1 [generated])).
  { unfold main_steps. rewrite run_print.
    rewrite (run_bind_Ok _ _ _ _ _ _ Hrole), run_print.
    rewrite (run_bind_Ok _ _ _ _ _ _ Hdeploy), run_print.
    change (test_endpoint ?p;; ?k) with (test_endpoint p ≫= fun _ => k).
    rewrite (run_bind_Ok _ _ _ _ _ _ Htest). split; reflexivity. }
  destruct Hsteps as [Hvalue Hfinal].
  assert (Hmain : value (main c) = Ok {| endpoint_name := generated |}
                  /\ final (main c) = final (main_steps c)).
  { unfold main. rewrite !run_print.
    destruct (main_steps c) as [[[pr|e] c2] t2] eqn:Hrun; [|discriminate].
    rewrite (run_try_Ok _ _ _ _ _ _ Hrun). split; [exact Hvalue|reflexivity]. }
  destruct Hmain as [Hmv Hmf]. split; [exact Hmv|]. split.
  - unfold finbert. destruct (main c) as [[[pr|e] c2] t2] eqn:Hrun; [|discriminate].
    rewrite (run_bind_Ok _ _ _ _ _ _ Hrun). unfold value in *. simpl in *.
    injection Hmv as ->. reflexivity.
  - rewrite Hmf. exact Hfinal.
Qed.

(** C6.  [deploy_huggingface_model] sends one deployment request, whose
    endpoint name is left unset; when the deployment succeeds, the predictor
    it returns bears the name the provider generated, the endpoint of that
    name is what the deployment added, and [main] and the script return
    that same predictor. *)
Theorem endpoint_name_is_the_generated_one (role_arn : string) (c : cloud) :
  req_endpoint_name (request_for role_arn) = None
  /\ deploy_requests (trace (deploy_huggingface_model role_arn c)) =
       [request_for role_arn]
  /\ (forall generated,
        deploy_outcome c (deployments c) (request_for role_arn) = Ok generated ->
        value (deploy_huggingface_model role_arn c) = Ok {| endpoint_name := generated |}
        /\ endpoints (final (deploy_huggingface_model role_arn c)) =
             endpoints c ++ [generated]
        /\ forall c0 t0,
             create_sagemaker_execution_role c0 = (Ok role_arn, c, t0) ->
             value (main c0) = Ok {| endpoint_name := generated |}
             /\ value (finbert c0) = Ok {| endpoint_name := generated |})
  /\ (forall e,
        deploy_outcome c (deployments c) (request_for role_arn) = Raise e ->
        value (deploy_huggingface_model role_arn c) = Raise e).
Proof.
  rewrite deploy_huggingface_model_run.
  split; [reflexivity|]. split; [|split].
  - destruct (deploy_outcome c (deployments c) (request_for role_arn)); reflexivity.
  - intros generated Hgen. rewrite Hgen.
    split; [reflexivity|]. split; [reflexivity|].
    intros c0 t0 Hrole.
    destruct (main_returns_the_predictor _ _ _ _ _ Hrole Hgen) as (Hmain & Hscript & _).
    split; assumption.
  - intros e Hfail. rewrite Hfail. reflexivity.
Qed.

(** C6 on an account where deployments succeed. *)
Lemma endpoint_name_is_the_generated_one_example :
  value (deploy_huggingface_model
           "arn:aws:iam::123456789012:role/SageMakerExecutionRole" provisioned_cloud) =
    Ok {| endpoint_name := generated_name |}
  /\ value (finbert quiet_cloud) = Ok {| endpoint_name := generated_name |}.
Proof.
  destruct (endpoint_name_is_the_generated_one
              "arn:aws:iam::123456789012:role/SageMakerExecutionRole" provisioned_cloud)
    as (_ & _ & Hok & _).
  destruct (Hok generated_name) as (Hvalue & _ & Hmain); [vm_compute; reflexivity|].
  split; [exact Hvalue|].
  apply (Hmain quiet_cloud (trace (create_sagemaker_execution_role quiet_cloud))).
  vm_compute. reflexivity.
Defined.

(* ===================================================================== *)
(** ** Further properties of the test flow *)
(* ===================================================================== *)

Lemma invoke_requests_app t1 t2 :
  invoke_requests (t1 ++ t2) = invoke_requests t1 ++ invoke_requests t2.
Proof.
  induction t1 as [|ev t1 IH]; [reflexivity|].
  destruct ev; simpl; rewrite IH; reflexivity.
Qed.

Lemma printed_app t1 t2 : printed (t1 ++ t2) = printed t1 ++ printed t2.
Proof.
  induction t1 as [|ev t1 IH]; [reflexivity|].
  destruct ev; simpl; rewrite IH; reflexivity.
Qed.

(** The test of one text: one invocation, then printed lines only. *)
Lemma test_text_events p i text c :
  exists lines,
    test_text p i text c =
    (Ok tt, tick_invoke c,
     SmInvoke (endpoint_name p) (payload text) :: map Print lines).
Proof.
  unfold test_text. run. fold (payload text).
  destruct (endpoint_reply c (invocations c) (endpoint_name p) (payload text))
    as [result|e]; simpl.
  2:{ exists [error_line i e]. reflexivity. }
  destruct result as [| | | | |[|first l]|]; simpl;
    try (refine (ex_intro _ [_; _] _); reflexivity).
  destruct first as [| | | | | |d]; simpl;
    try (refine (ex_intro _ [_] _); reflexivity).
  destruct (format_3f_check _) as [s|e]; simpl;
    refine (ex_intro _ [_; _] _); reflexivity.
Qed.

Lemma invoke_requests_prints lines : invoke_requests (map Print lines) = [].
Proof. induction lines; [reflexivity|exact IHlines]. Qed.

Lemma deploy_requests_prints lines : deploy_requests (map Print lines) = [].
Proof. induction lines; [reflexivity|exact IHlines]. Qed.

Lemma for_each_test_text_requests p items c :
  invoke_requests (trace (for_each (fun '(i, text) => test_text p i text) items c)) =
    map (fun item => invocation p item.2) items
  /\ deploy_requests (trace (for_each (fun '(i, text) => test_text p i text) items c)) = [].
Proof.
  revert c. induction items as [|[i text] items IH]; intros c; [split; reflexivity|].
  rewrite run_for_each_cons.
  destruct (test_text_events p i text c) as [lines Ht].
  change (test_text p i text;; ?k) with (test_text p i text ≫= fun _ => k).
  rewrite (run_bind_Ok _ _ _ _ _ _ Ht). unfold trace at 1 3. simpl.
  rewrite invoke_requests_app, deploy_requests_app,
    invoke_requests_prints, deploy_requests_prints.
  destruct (IH (tick_invoke c)) as [-> ->]. split; reflexivity.
Qed.

Lemma map_enumerate {A B} (f : A -> B) (l : list A) start :
  map (fun item => f item.2) (enumerate l start) = map f l.
Proof.
  revert start. induction l as [|x l IH]; intros start; [reflexivity|].
  simpl. rewrite IH. reflexivity.
Qed.

Lemma test_endpoint_on_requests p texts c :
  invoke_requests (trace (test_endpoint_on texts p c)) = map (invocation p) texts
  /\ deploy_requests (trace (test_endpoint_on texts p c)) = [].
Proof.
  unfold test_endpoint_on.
  change (banner ?title;; ?k) with (banner title ≫= fun _ => k).
  rewrite (run_bind_Ok _ _ _ tt c (banner_events "TESTING ENDPOINT")) by reflexivity.
  rewrite run_print. unfold trace at 1 4. simpl.
  destruct (for_each_test_text_requests p (enumerate texts 1) c) as [-> ->].
  rewrite map_enumerate. split; reflexivity.
Qed.

Lemma after_invocations_frame n c :
  roles (after_invocations n c) = roles c
  /\ iam_requests (after_invocations n c) = iam_requests c
  /\ endpoints (after_invocations n c) = endpoints c
  /\ invocations (after_invocations n c) = (invocations c + n)%nat.
Proof.
  revert c. induction n as [|n IH]; intros c; simpl.
  - repeat split. lia.
  - destruct (IH (tick_invoke c)) as (-> & -> & -> & ->). simpl.
    repeat split. lia.
Qed.

(** X1.  Whatever the endpoint answers, [test_endpoint] sends every text
    exactly once, in the order of the list, as [{"inputs": text}] to the
    endpoint of the predictor it was given; it requests no deployment, and
    it leaves IAM and the deployments of the cloud as they were. *)
Theorem test_flow_sends_each_text_once (p : HuggingFacePredictor)
    (texts : list string) (c : cloud) :
  invoke_requests (trace (test_endpoint_on texts p c)) = map (invocation p) texts
  /\ deploy_requests (trace (test_endpoint_on texts p c)) = []
  /\ roles (final (test_endpoint_on texts p c)) = roles c
  /\ iam_requests (final (test_endpoint_on texts p c)) = iam_requests c
  /\ endpoints (final (test_endpoint_on texts p c)) = endpoints c
  /\ invocations (final (test_endpoint_on texts p c)) = (invocations c + length texts)%nat.
Proof.
  destruct (test_endpoint_on_requests p texts c) as [Hinv Hdep].
  split; [exact Hinv|]. split; [exact Hdep|].
  rewrite test_endpoint_on_run. unfold final. simpl.
  apply after_invocations_frame.
Qed.

(** X2.  In the test flow, when the first entry of a non-empty response is
    not an object (a nested list, a string, a number), reading its label
    raises AttributeError: the text gets its error line and nothing else,
    not even its text line. *)
Theorem non_object_entry_is_reported (p : HuggingFacePredictor) (i : Z)
    (text : string) (first : json) (rest : list json) (c : cloud) :
  endpoint_reply c (invocations c) (endpoint_name p) (payload text)
    = Ok (JList (first :: rest)) ->
  (forall d, first <> JDict d) ->
  test_text p i text c =
    (Ok tt, tick_invoke c,
     [SmInvoke (endpoint_name p) (payload text);
      Print (error_line i AttributeError)]).
Proof.
  intros Hreply Hnot. unfold test_text. run. fold (payload text).
  rewrite Hreply. simpl.
  destruct first as [| | | | | |d]; try reflexivity.
  destruct (Hnot d eq_refl).
Qed.

(** X2 on an endpoint that answers a list of lists. *)
Lemma non_object_entry_is_reported_nested :
  test_text invoke.predictor 1 "Linkedin subscriptions up 30%" nested_endpoint_cloud =
    (Ok tt, tick_invoke nested_endpoint_cloud,
     [SmInvoke invoke.endpoint_name (payload "Linkedin subscriptions up 30%");
      Print (error_line 1 AttributeError)]).
Proof.
  apply (non_object_entry_is_reported invoke.predictor 1
           "Linkedin subscriptions up 30%" canned [] nested_endpoint_cloud eq_refl).
  intros d H. discriminate H.
Defined.

(** X3.  In the test flow, when the first entry is an object whose score
    does not take the format [.3f], the text line is printed all the same,
    and the error line follows in place of the sentiment line: ValueError
    for a string, OverflowError for an integer too large for a float,
    TypeError for null, a list or an object. *)
Theorem unformattable_score_is_reported (p : HuggingFacePredictor) (i : Z)
    (text : string) (d : list (string * json)) (rest : list json) (score : json)
    (c : cloud) :
  endpoint_reply c (invocations c) (endpoint_name p) (payload text)
    = Ok (JList (JDict d :: rest)) ->
  dict_lookup "score" d = Some score ->
  is_Ok (format_3f_check score) = false ->
  exists e,
    format_3f_check score = Raise e
    /\ test_text p i text c =
         (Ok tt, tick_invoke c,
          [SmInvoke (endpoint_name p) (payload text);
           Print (text_line i text);
           Print (error_line i e)])
    /\ (forall s, score = JStr s -> e = ValueError)
    /\ (forall z, score = JInt z -> e = OverflowError)
    /\ (score = JNull \/ (exists l, score = JList l) \/ (exists o, score = JDict o) ->
        e = TypeError).
Proof.
  intros Hreply Hscore Hbad.
  destruct (format_3f_check score) as [s|e] eqn:Hfmt; [discriminate|].
  exists e. split; [reflexivity|]. split.
  - rewrite (test_text_first_entry _ _ _ _ _ _ Hreply), Hscore. simpl.
    rewrite Hfmt. reflexivity.
  - split; [|split].
    + intros s ->. simpl in Hfmt. congruence.
    + intros z ->. simpl in Hfmt. case_match; congruence.
    + intros [->|[[l ->]|[o ->]]]; simpl in Hfmt; congruence.
Qed.

(** X3 on an endpoint whose scores are strings. *)
Lemma unformattable_score_is_reported_worded :
  exists e,
    format_3f_check (JStr "high") = Raise e
    /\ test_text invoke.predictor 1 "Linkedin subscriptions up 30%"
         worded_endpoint_cloud =
         (Ok tt, tick_invoke worded_endpoint_cloud,
          [SmInvoke invoke.endpoint_name (payload "Linkedin subscriptions up 30%");
           Print (text_line 1 "Linkedin subscriptions up 30%");
           Print (error_line 1 e)])
    /\ e = ValueError.
Proof.
  destruct (unformattable_score_is_reported invoke.predictor 1
              "Linkedin subscriptions up 30%"
              [("label", JStr "positive"); ("score", JStr "high")] []
              (JStr "high") worded_endpoint_cloud eq_refl eq_refl eq_refl)
    as (e & Hfmt & Hrun & Hstr & _).
  exists e. split; [exact Hfmt|]. split; [exact Hrun|]. apply (Hstr "high"). reflexivity.
Defined.

Lemma substring_whole m s : (String.length s <= m)%nat -> String.substring 0 m s = s.
Proof.
  revert m. induction s as [|ch s IH]; intros [|m] Hle; simpl in *; try reflexivity.
  - lia.
  - rewrite IH by lia. reflexivity.
Qed.

Lemma substring_prefix m s :
  (m <= String.length s)%nat ->
  String.length (String.substring 0 m s) = m
  /\ exists rest, s = String.substring 0 m s +:+ rest.
Proof.
  revert m. induction s as [|ch s IH]; intros [|m] Hle; simpl in *.
  - split; [reflexivity|]. exists "". reflexivity.
  - lia.
  - split; [reflexivity|]. exists (String ch s). reflexivity.
  - destruct (IH m) as [Hlen [rest Hrest]]; [lia|].
    split; [rewrite Hlen; reflexivity|]. exists rest.
    change (String ch s = String ch (String.substring 0 m s +:+ rest)).
    f_equal. exact Hrest.
Qed.

(** X4.  The line that shows a tested text shows it whole, without an
    ellipsis, when it has at most 60 characters; a longer text is cut to
    its first 60 characters, followed by ["..."]. *)
Theorem text_is_shown_up_to_60_characters (i : Z) (text : string) :
  exists shown ellipsis,
    text_line i text =
      [Str nl; Val (JInt i); Str (". Text: " +:+ dq); Str shown; Str ellipsis; Str dq]
    /\ ((String.length text <= 60)%nat -> shown = text /\ ellipsis = "")
    /\ ((60 < String.length text)%nat ->
        String.length shown = 60%nat /\ ellipsis = "..."
        /\ exists rest, text = shown +:+ rest).
Proof.
  exists (String.substring 0 60 text),
         (if Nat.ltb 60 (String.length text) then "..." else "").
  split; [reflexivity|]. split.
  - intros Hle. split; [apply substring_whole; exact Hle|].
    destruct (Nat.ltb_spec 60 (String.length text)); [lia|reflexivity].
  - intros Hlt. destruct (substring_prefix 60 text) as [Hlen Hrest]; [lia|].
    split; [exact Hlen|]. split; [|exact Hrest].
    destruct (Nat.ltb_spec 60 (String.length text)); [reflexivity|lia].
Qed.

(* ===================================================================== *)
(** ** Further properties of the standalone flow *)
(* ===================================================================== *)

Section standalone_more.

Variable p : HuggingFacePredictor.

(** A reply that cannot be tagged ends the loop after its invocation. *)
Lemma make_predictions_tag_raise phrase rest outputs c result e :
  reply_at p c 0 phrase = Ok result ->
  invoke.tag_first result phrase = Raise e ->
  invoke.make_predictions p (phrase :: rest) outputs c =
  (Raise e, tick_invoke c, [SmInvoke (endpoint_name p) (payload phrase)]).
Proof.
  unfold reply_at. rewrite Nat.add_0_r. intros Hreply Htag.
  simpl. run. fold (payload phrase). rewrite Hreply. simpl. rewrite Htag.
  reflexivity.
Qed.

Lemma tag_first_Raise result phrase :
  (forall d rest, result <> JList (JDict d :: rest)) ->
  exists e,
    invoke.tag_first result phrase = Raise e
    /\ (result = JList [] -> e = IndexError)
    /\ ((exists d, result = JDict d) -> e = KeyError)
    /\ (forall x rest, result = JList (x :: rest) -> e = TypeError).
Proof.
  intros Hnot.
  assert (Hcases : forall e,
    (result <> JList [] \/ e = IndexError) ->
    ((forall d, result <> JDict d) \/ e = KeyError) ->
    ((forall x rest, result <> JList (x :: rest)) \/ e = TypeError) ->
    (result = JList [] -> e = IndexError)
    /\ ((exists d, result = JDict d) -> e = KeyError)
    /\ (forall x rest, result = JList (x :: rest) -> e = TypeError)).
  { intros e [H1|H1] [H2|H2] [H3|H3]; repeat split;
      try (intros H; congruence); try (intros [d H]; congruence);
      try (intros x rest H; congruence). }
  unfold invoke.tag_first.
  destruct result as [| | | |s|[|first l]|d]; simpl.
  1-4: eexists; (split; [reflexivity|]); apply Hcases;
         [left; discriminate|left; discriminate|left; discriminate].
  - destruct (String.get 0 s); simpl; eexists; (split; [reflexivity|]);
      apply Hcases; left; discriminate.
  - eexists. split; [reflexivity|]. apply Hcases;
      [right; reflexivity|left; discriminate|left; discriminate].
  - destruct first as [| | | | | |d]; simpl;
      try (eexists; (split; [reflexivity|]); apply Hcases;
           [left; discriminate|left; discriminate|right; reflexivity]).
    destruct (Hnot d l eq_refl).
  - eexists. split; [reflexivity|]. apply Hcases;
      [left; discriminate|right; reflexivity|left; discriminate].
Qed.

Lemma printed_quiet t : Forall (fun ev => is_print ev = false) t -> printed t = [].
Proof.
  induction 1 as [|ev t Hev _ IH]; [reflexivity|].
  destruct ev; simpl in *; try discriminate; exact IH.
Qed.

(** The loop's invocations are those of a first part of the inputs. *)
Lemma make_predictions_requests inputs outputs c :
  exists n,
    (n <= length inputs)%nat
    /\ invoke_requests (trace (invoke.make_predictions p inputs outputs c)) =
         map (invocation p) (take n inputs)
    /\ invocations (final (invoke.make_predictions p inputs outputs c)) =
         (invocations c + n)%nat
    /\ (is_Ok (value (invoke.make_predictions p inputs outputs c)) = true ->
        n = length inputs)
    /\ (is_Ok (value (invoke.make_predictions p inputs outputs c)) = false ->
        (n <> 0)%nat).
Proof.
  revert outputs c. induction inputs as [|phrase inputs IH]; intros outputs c.
  { exists 0%nat. unfold value, final, trace. simpl.
    split_and!; [lia|reflexivity|lia|reflexivity|discriminate]. }
  destruct (reply_at p c 0 phrase) as [result|e] eqn:Hreply.
  2:{ exists 1%nat. rewrite (make_predictions_raise _ _ _ _ _ _ Hreply).
      unfold value, final, trace. simpl.
      split_and!; [lia|reflexivity|lia|discriminate|lia]. }
  destruct (invoke.tag_first result phrase) as [result'|e] eqn:Htag.
  2:{ exists 1%nat. rewrite (make_predictions_tag_raise _ _ _ _ _ _ Hreply Htag).
      unfold value, final, trace. simpl.
      split_and!; [lia|reflexivity|lia|discriminate|lia]. }
  destruct (IH (outputs ++ [result']) (tick_invoke c)) as (n & Hn & Hreq & Hinv & Hok & Hko).
  exists (S n). rewrite (make_predictions_step _ _ _ _ _ _ _ Hreply Htag).
  unfold value, final, trace in *. simpl in *.
  rewrite Hreq, Hinv.
  split_and!; [lia|reflexivity|lia| |lia].
  intros H. rewrite (Hok H). reflexivity.
Qed.

End standalone_more.



Lemma print_prediction_missing phrase d rest c :
  dict_lookup "score" d = None \/ dict_lookup "label" d = None ->
  invoke.print_prediction (tagged phrase d rest) c = (Raise KeyError, c, []).
Proof.
  intros Hmiss. unfold invoke.print_prediction, tagged. run.
  rewrite dict_lookup_store_eq. simpl.
  rewrite (dict_lookup_store_ne "phrase" "score") by discriminate.
  destruct (dict_lookup "score" d) as [score|] eqn:Hscore; simpl; [|reflexivity].
  rewrite (dict_lookup_store_ne "phrase" "label") by discriminate.
  destruct Hmiss as [H|H]; [discriminate|]. rewrite H. reflexivity.
Qed.

Lemma for_each_app_Ok {A} (body : A -> M unit) l1 l2 c c1 t1 :
  for_each body l1 c = (Ok tt, c1, t1) ->
  for_each body (l1 ++ l2) c =
  (value (for_each body l2 c1), final (for_each body l2 c1),
   t1 ++ trace (for_each body l2 c1)).
Proof.
  revert c t1. induction l1 as [|x l1 IH]; intros c t1 H.
  - simpl in H. run. simplify_eq. apply triple_eta.
  - simpl app. rewrite run_for_each_cons in H. rewrite run_for_each_cons.
    change (body x;; ?k) with (body x ≫= fun _ => k) in *.
    rewrite run_bind in H. rewrite run_bind.
    destruct (body x c) as [[[[]|e] c0] t0]; [|discriminate].
    destruct (for_each body l1 c0) as [[r c2] t2] eqn:Hrest.
    simplify_eq. rewrite (IH _ _ Hrest). unfold value, final, trace. simpl.
    rewrite app_assoc. reflexivity.
Qed.

(** X5.  In the standalone flow, a reply that is not a non-empty list
    starting with an object makes the script raise right after that
    invocation (IndexError for an empty list, KeyError for an object,
    TypeError for a list starting with anything but an object): the later
    inputs are not sent and nothing is printed. *)
Theorem malformed_reply_stops_the_script (inputs1 inputs2 : list string)
    (phrase : string) (outputs1 : list json) (c c1 : cloud) (t1 : list event)
    (result : json) :
  invoke.make_predictions invoke.predictor inputs1 [] c = (Ok outputs1, c1, t1) ->
  reply_at invoke.predictor c1 0 phrase = Ok result ->
  (forall d rest, result <> JList (JDict d :: rest)) ->
  exists e,
    invoke.script_on (inputs1 ++ phrase :: inputs2) c =
      (Raise e, tick_invoke c1,
       t1 ++ [SmInvoke invoke.endpoint_name (payload phrase)])
    /\ printed (t1 ++ [SmInvoke invoke.endpoint_name (payload phrase)]) = []
    /\ (result = JList [] -> e = IndexError)
    /\ ((exists d, result = JDict d) -> e = KeyError)
    /\ (forall x rest, result = JList (x :: rest) -> e = TypeError).
Proof.
  intros Hfirst Hreply Hshape.
  destruct (tag_first_Raise result phrase Hshape) as (e & Htag & Hcases).
  exists e. split; [|split; [|exact Hcases]].
  - unfold invoke.script_on. apply run_bind_Raise.
    rewrite (make_predictions_app _ _ _ _ _ _ _ _ Hfirst).
    rewrite (make_predictions_tag_raise _ _ _ _ _ _ _ Hreply Htag). reflexivity.
  - rewrite printed_app. simpl. rewrite app_nil_r. apply printed_quiet.
    pose proof (make_predictions_quiet invoke.predictor inputs1 [] c) as Hq.
    rewrite Hfirst in Hq. exact Hq.
Qed.

(** X5 on an endpoint that answers the empty list. *)
Lemma malformed_reply_stops_the_script_empty :
  exists e,
    invoke.script empty_endpoint_cloud =
      (Raise e, tick_invoke empty_endpoint_cloud,
       [SmInvoke invoke.endpoint_name
          (payload "Hyperfine spiked 30% in the past day due to a new software release")])
    /\ e = IndexError.
Proof.
  destruct (malformed_reply_stops_the_script []
              ["GE stock price droped 20% last quarter due to waining demand for appliances";
               "Linkedin subscriptions up 30%"]
              "Hyperfine spiked 30% in the past day due to a new software release"
              [] empty_endpoint_cloud empty_endpoint_cloud [] (JList [])
              eq_refl eq_refl)
    as (e & Hrun & _ & Hempty & _).
  - intros d rest H. discriminate H.
  - exists e. split; [exact Hrun|apply Hempty; reflexivity].
Defined.


(** Printing the outputs when each has its label and its score. *)
Lemma print_predictions_tagged preds c :
  (forall k pred, preds !! k = Some pred ->
     exists phrase d rest label score,
       pred = tagged phrase d rest
       /\ dict_lookup "label" d = Some label
       /\ dict_lookup "score" d = Some score) ->
  exists lines,
    for_each invoke.print_prediction preds c = (Ok tt, c, map Print lines)
    /\ length lines = length preds
    /\ forall k phrase d rest label score,
         preds !! k = Some (tagged phrase d rest) ->
         dict_lookup "label" d = Some label ->
         dict_lookup "score" d = Some score ->
         lines !! k = Some (prediction_line (JStr phrase) score label).
Proof.
  induction preds as [|pred preds IH]; intros Hall.
  { exists []. split_and!; [reflexivity|reflexivity|]. intros k. discriminate. }
  destruct (Hall 0%nat pred eq_refl) as (phrase0 & d0 & rest0 & label0 & score0 & -> & Hl0 & Hs0).
  destruct IH as (lines & Hrun & Hlen & Hlines).
  { intros k x Hk. exact (Hall (S k) x Hk). }
  exists (prediction_line (JStr phrase0) score0 label0 :: lines).
  split_and!.
  - rewrite run_for_each_cons.
    change (invoke.print_prediction ?x;; ?k) with (invoke.print_prediction x ≫= fun _ => k).
    rewrite (run_bind_Ok _ _ _ _ _ _
               (print_prediction_tagged phrase0 d0 rest0 _ _ c Hl0 Hs0)).
    rewrite Hrun. reflexivity.
  - simpl. rewrite Hlen. reflexivity.
  - intros [|k] phrase d rest label score Hk Hl Hs; simpl in Hk.
    + pose proof (print_prediction_tagged phrase0 d0 rest0 _ _ c Hl0 Hs0) as H0.
      assert (Heq : tagged phrase0 d0 rest0 = tagged phrase d rest) by congruence.
      rewrite Heq, (print_prediction_tagged phrase d rest _ _ c Hl Hs) in H0.
      simpl. congruence.
    + exact (Hlines k phrase d rest label score Hk Hl Hs).
Qed.

(** X7.  In the standalone flow, when every reply is a non-empty list whose
    first entry is an object with a label and a score, the script ends
    normally and prints one line for each input, in the order of the
    inputs: the input, then the score and the label of the first entry of
    its reply. *)
Theorem script_prints_each_prediction (inputs : list string) (c : cloud) :
  (forall k phrase, inputs !! k = Some phrase ->
     exists d rest label score,
       reply_at invoke.predictor c k phrase = Ok (JList (JDict d :: rest))
       /\ dict_lookup "label" d = Some label
       /\ dict_lookup "score" d = Some score) ->
  exists outputs lines,
    value (invoke.script_on inputs c) = Ok outputs
    /\ printed (trace (invoke.script_on inputs c)) = lines
    /\ length outputs = length inputs
    /\ length lines = length inputs
    /\ forall k phrase d rest label score,
         inputs !! k = Some phrase ->
         reply_at invoke.predictor c k phrase = Ok (JList (JDict d :: rest)) ->
         dict_lookup "label" d = Some label ->
         dict_lookup "score" d = Some score ->
         lines !! k = Some (prediction_line (JStr phrase) score label).
Proof.
  intros Hall.
  destruct (make_predictions_ok invoke.predictor inputs [] c)
    as (news & t & Hloop & Hquiet & Hlen & Hnews).
  { intros k phrase Hk. destruct (Hall k phrase Hk) as (d & rest & _ & _ & H & _). eauto. }
  simpl in Hloop.
  destruct (print_predictions_tagged news (after_invocations (length inputs) c))
    as (lines & Hprint & Hlines_len & Hlines).
  { intros k pred Hk.
    destruct (lookup_lt_is_Some_2 inputs k) as [phrase Hphrase].
    { rewrite <- Hlen. eapply lookup_lt_Some. exact Hk. }
    destruct (Hall k phrase Hphrase) as (d & rest & label & score & Hreply & Hl & Hs).
    destruct (Hnews k phrase Hphrase) as (d' & rest' & Hreply' & Hout).
    rewrite Hreply in Hreply'. injection Hreply' as <- <-.
    rewrite Hk in Hout. injection Hout as ->. eauto 10. }
  exists news, lines. unfold invoke.script_on.
  rewrite (run_bind_Ok _ _ _ _ _ _ Hloop).
  change (for_each ?b ?l;; ?k) with (for_each b l ≫= fun _ => k).
  rewrite (run_bind_Ok _ _ _ _ _ _ Hprint). unfold value, final, trace. simpl.
  rewrite app_nil_r, printed_app, (printed_quiet _ Hquiet). simpl.
  assert (Hprinted : printed (map Print lines) = lines).
  { clear. induction lines; simpl; [|rewrite IHlines]; reflexivity. }
  rewrite Hprinted. split_and!; [reflexivity|reflexivity|exact Hlen|congruence|].
  intros k phrase d rest label score Hk Hreply Hl Hs.
  destruct (Hnews k phrase Hk) as (d' & rest' & Hreply' & Hout).
  rewrite Hreply in Hreply'. injection Hreply' as <- <-.
  exact (Hlines k phrase d rest label score Hout Hl Hs).
Qed.

(** X7 on the script's own inputs, every reply being [canned]. *)
Lemma script_prints_each_prediction_canned :
  exists outputs lines,
    value (invoke.script quiet_cloud) = Ok outputs
    /\ printed (trace (invoke.script quiet_cloud)) = lines
    /\ length lines = 3%nat
    /\ lines !! 1%nat =
         Some (prediction_line
                 (JStr "GE stock price droped 20% last quarter due to waining demand for appliances")
                 (JFloat 0.87) (JStr "positive")).
Proof.
  destruct (script_prints_each_prediction invoke.inputs quiet_cloud)
    as (outputs & lines & Hvalue & Hprinted & _ & Hlen & Hlines).
  - intros [|[|[|k]]] phrase Hk; simplify_eq/=;
      exists [("label", JStr "positive"); ("score", JFloat 0.87)], [],
        (JStr "positive"), (JFloat 0.87); repeat split.
  - exists outputs, lines. split_and!; [exact Hvalue|exact Hprinted|exact Hlen|].
    apply (Hlines 1%nat _ [("label", JStr "positive"); ("score", JFloat 0.87)] []);
      reflexivity.
Defined.

(** X8.  The standalone flow has no default for a missing field: when the
    predictions have all been made and the first entry of an output lacks
    its score or its label, the printing loop raises KeyError at that
    output, after the lines of the outputs before it. *)
Theorem missing_field_stops_the_printing (inputs : list string) (c c1 : cloud)
    (t tp : list event) (before after : list json) (phrase : string)
    (d : list (string * json)) (rest : list json) :
  invoke.make_predictions invoke.predictor inputs [] c =
    (Ok (before ++ tagged phrase d rest :: after), c1, t) ->
  for_each invoke.print_prediction before c1 = (Ok tt, c1, tp) ->
  dict_lookup "score" d = None \/ dict_lookup "label" d = None ->
  invoke.script_on inputs c = (Raise KeyError, c1, t ++ tp)
  /\ invocations c1 = (invocations c + length inputs)%nat.
Proof.
  intros Hloop Hbefore Hmiss. split.
  - unfold invoke.script_on. rewrite (run_bind_Ok _ _ _ _ _ _ Hloop).
    change (for_each ?b ?l;; ?k) with (for_each b l ≫= fun _ => k).
    rewrite run_bind, (for_each_app_Ok _ _ _ _ _ _ Hbefore).
    rewrite run_for_each_cons.
    change (invoke.print_prediction ?x;; ?k) with (invoke.print_prediction x ≫= fun _ => k).
    rewrite (run_bind_Raise _ _ _ _ _ _ (print_prediction_missing phrase d rest c1 Hmiss)).
    unfold value, final, trace. simpl. rewrite app_nil_r. reflexivity.
  - destruct (make_predictions_requests invoke.predictor inputs [] c)
      as (n & _ & _ & Hinv & Hok & _).
    rewrite Hloop in Hinv, Hok. unfold final, value in *. simpl in *.
    rewrite Hinv, (Hok eq_refl). reflexivity.
Qed.

(** X8 on an endpoint whose entries have no label. *)
Lemma missing_field_stops_the_printing_unlabelled :
  invoke.script_on ["Linkedin subscriptions up 30%"] unlabelled_endpoint_cloud =
    (Raise KeyError, tick_invoke unlabelled_endpoint_cloud,
     [SmInvoke invoke.endpoint_name (payload "Linkedin subscriptions up 30%")] ++ [])
  /\ invocations (tick_invoke unlabelled_endpoint_cloud) =
       (invocations unlabelled_endpoint_cloud + 1)%nat.
Proof.
  apply (missing_field_stops_the_printing ["Linkedin subscriptions up 30%"]
           unlabelled_endpoint_cloud (tick_invoke unlabelled_endpoint_cloud)
           _ [] [] [] "Linkedin subscriptions up 30%" [("score", JFloat 0.87)] []).
  - reflexivity.
  - reflexivity.
  - right. reflexivity.
Defined.

(* ===================================================================== *)
(** ** Further properties of the role provisioner *)
(* ===================================================================== *)

Lemma iam_only_refl c : iam_only c c.
Proof. repeat split. Qed.

Lemma iam_only_trans c1 c2 c3 : iam_only c1 c2 -> iam_only c2 c3 -> iam_only c1 c3.
Proof. unfold iam_only. intros H1 H2. destruct_and!. split_and!; congruence. Qed.

Lemma extends_refl r : extends r r.
Proof. split_and!; [reflexivity|reflexivity|]. exists []. rewrite app_nil_r. reflexivity. Qed.

Lemma extends_trans r1 r2 r3 : extends r1 r2 -> extends r2 r3 -> extends r1 r3.
Proof.
  intros (Ha & Ht & e1 & H1) (Ha' & Ht' & e2 & H2).
  split_and!; [congruence|congruence|].
  exists (e1 ++ e2). rewrite H2, H1, app_assoc. reflexivity.
Qed.

Section role_effects.

Variable role_name : string.

(** One turn of the loop over the policies, on the cloud. *)
Lemma attach_policy_effect policy_arn c :
  exists c' l,
    attach_policy role_name policy_arn c =
      (Ok tt, c', [IamAttachRolePolicy role_name policy_arn; Print l])
    /\ iam_only c c'
    /\ iam_requests c' = S (iam_requests c)
    /\ (forall other, other <> role_name -> roles c' !! other = roles c !! other)
    /\ (roles c !! role_name = None -> roles c' !! role_name = None)
    /\ (forall r, roles c !! role_name = Some r ->
          exists r', roles c' !! role_name = Some r' /\ extends r r'
            /\ (length (attached r') <= S (length (attached r)))%nat
            /\ (iam_fault c (iam_requests c) = None ->
                (length (attached r) < policy_quota c)%nat ->
                policy_arn ∈ attached r')).
Proof.
  unfold attach_policy, iam_attach_role_policy, iam_request. run.
  destruct (iam_fault c (iam_requests c)) as [code|] eqn:Hfault; simpl.
  { destruct (bool_decide (code = "LimitExceeded")); simpl;
      (do 2 eexists; split; [reflexivity|]);
      (split_and!; [repeat split|reflexivity|reflexivity|tauto|]);
      intros r Hr; exists r;
      (split_and!; [exact Hr|apply extends_refl|lia|discriminate]). }
  destruct (roles c !! role_name) as [r0|] eqn:Hrole; simpl.
  2:{ do 2 eexists. split; [reflexivity|].
      split_and!; [repeat split|reflexivity|reflexivity|tauto|].
      intros r Hr. discriminate. }
  destruct (bool_decide (policy_arn ∈ attached r0)) eqn:Hmember; simpl.
  { do 2 eexists. split; [reflexivity|].
    split_and!; [repeat split|reflexivity|reflexivity|discriminate|].
    intros r Hr. simplify_eq. exists r.
    split_and!; [exact Hrole|apply extends_refl|lia|].
    intros _ _. apply bool_decide_eq_true_1 in Hmember. exact Hmember. }
  destruct (bool_decide (policy_quota c ≤ length (attached r0))%nat) eqn:Hquota; simpl.
  { do 2 eexists. split; [reflexivity|].
    split_and!; [repeat split|reflexivity|reflexivity|discriminate|].
    intros r Hr. simplify_eq. exists r.
    split_and!; [exact Hrole|apply extends_refl|lia|].
    intros _ Hroom. apply bool_decide_eq_true_1 in Hquota. lia. }
  do 2 eexists. split; [reflexivity|]. simpl.
  split_and!; [repeat split|reflexivity| | |].
  - intros other Hother. apply lookup_insert_ne. congruence.
  - discriminate.
  - intros r Hr. simplify_eq. eexists. split; [apply lookup_insert_eq|].
    split_and!.
    + split_and!; [reflexivity|reflexivity|]. simpl. eauto.
    + simpl. rewrite length_app. simpl. lia.
    + intros _ _. simpl. apply elem_of_app. right. apply list_elem_of_singleton.
      reflexivity.
Qed.

End role_effects.

Lemma concerns_role_requests role_name t :
  Forall (fun ev => concerns_role role_name ev = true) t ->
  deploy_requests t = [] /\ invoke_requests t = [].
Proof.
  induction 1 as [|ev t Hev _ IH]; [split; reflexivity|].
  destruct ev; simpl in *; try discriminate; exact IH.
Qed.

Lemma fault_free_iam_only c c' :
  iam_only c c' -> (iam_requests c <= iam_requests c')%nat ->
  fault_free c -> fault_free c'.
Proof.
  intros Hframe Hn. apply fault_free_later; [|exact Hn].
  unfold iam_only in Hframe. tauto.
Qed.

Section role_effects_batch.

Variable role_name : string.

(** The loop over the policies, on the cloud: only the role is touched,
    policies are added to it and none is taken away, and with IAM serving
    and room under the quota every policy of the list ends attached. *)
Lemma attach_policies_effect policies c :
  exists c' t,
    for_each (attach_policy role_name) policies c = (Ok tt, c', t)
    /\ Forall (fun ev => concerns_role role_name ev = true) t
    /\ iam_only c c'
    /\ iam_requests c' = (iam_requests c + length policies)%nat
    /\ (forall other, other <> role_name -> roles c' !! other = roles c !! other)
    /\ (forall r, roles c !! role_name = Some r ->
          exists r', roles c' !! role_name = Some r' /\ extends r r'
            /\ (fault_free c ->
                (length (attached r) + length policies <= policy_quota c)%nat ->
                forall policy_arn, policy_arn ∈ policies -> policy_arn ∈ attached r')
            /\ (length (attached r') <= length (attached r) + length policies)%nat).
Proof.
  revert c. induction policies as [|policy_arn policies IH]; intros c.
  { exists c, []. split_and!; [reflexivity|constructor|apply iam_only_refl|simpl; lia|tauto|].
    intros r Hr. exists r. split_and!; [exact Hr|apply extends_refl| |simpl; lia].
    intros _ _ x Hx. inversion Hx. }
  destruct (attach_policy_effect role_name policy_arn c)
    as (c1 & l & Hrun & Hframe1 & Hn1 & Hother1 & _ & Hrole1).
  destruct (IH c1) as (c2 & t & Hrest & Hlocal & Hframe2 & Hn2 & Hother2 & Hrole2).
  exists c2. eexists. rewrite run_for_each_cons.
  change (attach_policy role_name policy_arn;; ?k)
    with (attach_policy role_name policy_arn ≫= fun _ => k).
  rewrite (run_bind_Ok _ _ _ _ _ _ Hrun), Hrest. unfold value, final, trace. simpl.
  split_and!; [reflexivity| | | | |].
  - constructor; [simpl; apply bool_decide_eq_true_2; reflexivity|].
    constructor; [reflexivity|exact Hlocal].
  - exact (iam_only_trans _ _ _ Hframe1 Hframe2).
  - rewrite Hn2, Hn1. lia.
  - intros other Hother. rewrite (Hother2 _ Hother). exact (Hother1 _ Hother).
  - intros r Hr.
    destruct (Hrole1 r Hr) as (r1 & Hr1 & Hext1 & Hlen1 & Hin1).
    destruct (Hrole2 r1 Hr1) as (r2 & Hr2 & Hext2 & Hin2 & Hlen2).
    exists r2. split_and!; [exact Hr2|exact (extends_trans _ _ _ Hext1 Hext2)| |lia].
    intros Hserve Hroom x Hx.
    assert (Hquota : policy_quota c1 = policy_quota c)
      by (unfold iam_only in Hframe1; tauto).
    apply elem_of_cons in Hx as [->|Hx].
    + destruct Hext2 as (_ & _ & extra & ->). apply elem_of_app. left.
      apply Hin1; [apply Hserve; lia|lia].
    + apply Hin2; [|lia|exact Hx].
      apply (fault_free_iam_only c c1 Hframe1); [lia|exact Hserve].
Qed.

(** The first [try] of the step, on the cloud. *)
Lemma create_or_get_role_effect c :
  Forall (fun ev => concerns_role role_name ev = true)
    (trace (create_or_get_role role_name c))
  /\ iam_only c (final (create_or_get_role role_name c))
  /\ (iam_requests c <= iam_requests (final (create_or_get_role role_name c)))%nat
  /\ (forall other, other <> role_name ->
        roles (final (create_or_get_role role_name c)) !! other = roles c !! other)
  /\ (forall r, roles c !! role_name = Some r ->
        roles (final (create_or_get_role role_name c)) !! role_name = Some r).
Proof.
  assert (Hsame : concerns_role role_name (create_request role_name) = true
                  /\ concerns_role role_name (IamGetRole role_name) = true).
  { split; simpl; apply bool_decide_eq_true_2; reflexivity. }
  destruct Hsame as [Hcreate Hget].
  unfold create_request in Hcreate.
  unfold create_or_get_role, iam_create_role, iam_get_role, iam_request. run.
  repeat (case_match; simplify_eq/=);
    (split_and!;
     [repeat (constructor; try assumption; try reflexivity)
     |repeat split
     |lia
     |intros other Hother; try reflexivity; apply lookup_insert_ne; congruence
     |intros r Hr; congruence]).
Qed.

(** The step as its two parts, when the first gives the identifier. *)
Lemma role_step_parts c arn c1 t1 :
  create_or_get_role role_name c = (Ok arn, c1, t1) ->
  create_sagemaker_execution_role_named role_name c =
  (Ok arn,
   final (for_each (attach_policy role_name) required_policies c1),
   t1 ++ trace (for_each (attach_policy role_name) required_policies c1)).
Proof.
  intros Hfirst.
  destruct (attach_policies_effect required_policies c1) as (c2 & t2 & Hloop & _).
  unfold create_sagemaker_execution_role_named.
  rewrite (run_bind_Ok _ _ _ _ _ _ Hfirst).
  change (for_each ?b ?l;; ?k) with (for_each b l ≫= fun _ => k).
  rewrite (run_bind_Ok _ _ _ _ _ _ Hloop), Hloop. unfold value, final, trace. simpl.
  rewrite app_nil_r. reflexivity.
Qed.

Lemma role_step_effect c :
  Forall (fun ev => concerns_role role_name ev = true)
    (trace (create_sagemaker_execution_role_named role_name c))
  /\ iam_only c (final (create_sagemaker_execution_role_named role_name c))
  /\ (forall other, other <> role_name ->
        roles (final (create_sagemaker_execution_role_named role_name c)) !! other =
        roles c !! other)
  /\ (forall r, roles c !! role_name = Some r ->
        exists r',
          roles (final (create_sagemaker_execution_role_named role_name c)) !! role_name
            = Some r'
          /\ extends r r').
Proof.
  destruct (create_or_get_role_effect c) as (Hlocal & Hframe & _ & Hother & Hrole).
  destruct (create_or_get_role role_name c) as [[[arn|e] c1] t1] eqn:Hfirst;
    unfold trace, final in Hlocal, Hframe, Hother, Hrole; simpl in *.
  - rewrite (role_step_parts _ _ _ _ Hfirst).
    destruct (attach_policies_effect required_policies c1)
      as (c2 & t2 & Hloop & Hlocal2 & Hframe2 & _ & Hother2 & Hrole2).
    rewrite Hloop. unfold trace, final. simpl. split_and!.
    + apply Forall_app. split; assumption.
    + exact (iam_only_trans _ _ _ Hframe Hframe2).
    + intros other Hne. rewrite (Hother2 _ Hne). exact (Hother _ Hne).
    + intros r Hr. destruct (Hrole2 r (Hrole r Hr)) as (r' & Hr' & Hext & _). eauto.
  - rewrite (role_step_raise _ _ _ _ _ Hfirst). unfold trace, final. simpl.
    split_and!; [exact Hlocal|exact Hframe|exact Hother|].
    intros r Hr. exists r. split; [exact (Hrole r Hr)|apply extends_refl].
Qed.

End role_effects_batch.

(** X9.  When [create_role] fails for any reason other than the name being
    taken, the provisioning step raises that error at once: it does not
    look the role up, does not wait and attaches no policy. *)
Theorem creation_failure_is_fatal (role_name code : string) (c : cloud) :
  iam_fault c (iam_requests c) = Some code ->
  code <> "EntityAlreadyExists" ->
  create_sagemaker_execution_role_named role_name c =
    (Raise (ClientError code), tick_iam c,
     [Print [Str "Creating IAM role: "; Str role_name]; create_request role_name]).
Proof.
  intros Hfault Hcode. apply role_step_raise.
  unfold create_or_get_role, iam_create_role, iam_request. run.
  rewrite Hfault. simpl. rewrite bool_decide_eq_false_2 by exact Hcode. reflexivity.
Qed.

(** X9 on an account whose first request is denied. *)
Lemma creation_failure_is_fatal_denied :
  create_sagemaker_execution_role denied_cloud =
    (Raise (ClientError "AccessDenied"), tick_iam denied_cloud,
     [Print [Str "Creating IAM role: "; Str "SageMakerExecutionRole"];
      create_request "SageMakerExecutionRole"]).
Proof.
  apply (creation_failure_is_fatal "SageMakerExecutionRole" "AccessDenied" denied_cloud).
  - reflexivity.
  - discriminate.
Defined.

(** X10.  When the role exists and [get_role] fails, the handler's error
    leaves the provisioning step: the step raises it after the two requests
    and attaches no policy. *)
Theorem lookup_failure_is_fatal (role_name code : string) (r : iam_role) (c : cloud) :
  iam_fault c (iam_requests c) = None ->
  roles c !! role_name = Some r ->
  iam_fault c (S (iam_requests c)) = Some code ->
  create_sagemaker_execution_role_named role_name c =
    (Raise (ClientError code), tick_iam (tick_iam c),
     [Print [Str "Creating IAM role: "; Str role_name];
      create_request role_name;
      Print [Str "Role "; Str role_name; Str " already exists, using existing role"];
      IamGetRole role_name]).
Proof.
  intros Hfault1 Hrole Hfault2. apply role_step_raise.
  unfold create_or_get_role, iam_create_role, iam_get_role, iam_request. run.
  rewrite Hfault1, Hrole. simpl. rewrite Hfault2. reflexivity.
Qed.

(** X10 on an account that has the role and denies its lookup. *)
Lemma lookup_failure_is_fatal_denied :
  exists c',
    create_sagemaker_execution_role unreadable_role_cloud =
      (Raise (ClientError "AccessDenied"), c',
       [Print [Str "Creating IAM role: "; Str "SageMakerExecutionRole"];
        create_request "SageMakerExecutionRole";
        Print [Str "Role "; Str "SageMakerExecutionRole";
               Str " already exists, using existing role"];
        IamGetRole "SageMakerExecutionRole"]).
Proof.
  eexists.
  apply (lookup_failure_is_fatal "SageMakerExecutionRole" "AccessDenied"
           {| Arn := "arn:aws:iam::123456789012:role/SageMakerExecutionRole";
              trust := trust_policy;
              attached := required_policies |} unreadable_role_cloud);
    vm_compute; reflexivity.
Defined.

(** X11.  The provisioning step stays within its role: every request it
    makes to IAM names that role, it requests no deployment and no
    invocation, the other roles of the account are as they were, and a role
    that was there keeps its identifier, its trust policy (the script's own
    trust policy is not applied to it) and its policies, to which policies
    are added at most. *)
Theorem role_step_stays_within_its_role (role_name : string) (c : cloud) :
  Forall (fun ev => concerns_role role_name ev = true)
    (trace (create_sagemaker_execution_role_named role_name c))
  /\ deploy_requests (trace (create_sagemaker_execution_role_named role_name c)) = []
  /\ invoke_requests (trace (create_sagemaker_execution_role_named role_name c)) = []
  /\ iam_only c (final (create_sagemaker_execution_role_named role_name c))
  /\ (forall other, other <> role_name ->
        roles (final (create_sagemaker_execution_role_named role_name c)) !! other =
        roles c !! other)
  /\ (forall r, roles c !! role_name = Some r ->
        exists r',
          roles (final (create_sagemaker_execution_role_named role_name c)) !! role_name
            = Some r'
          /\ Arn r' = Arn r /\ trust r' = trust r
          /\ exists extra, attached r' = attached r ++ extra).
Proof.
  destruct (role_step_effect role_name c) as (Hlocal & Hframe & Hother & Hrole).
  destruct (concerns_role_requests _ _ Hlocal) as [Hdep Hinv].
  split_and!; [exact Hlocal|exact Hdep|exact Hinv|exact Hframe|exact Hother|exact Hrole].
Qed.

(** X12.  Once the provisioning step has returned an identifier, whatever
    happened to its attachments, a further call that IAM serves returns the
    same identifier without waiting, and asks again for every required
    policy. *)
Theorem rerun_returns_the_same_role (role_name arn : string) (c c1 : cloud)
    (t1 : list event) :
  create_sagemaker_execution_role_named role_name c = (Ok arn, c1, t1) ->
  fault_free c1 ->
  exists c2 t2,
    create_sagemaker_execution_role_named role_name c1 =
      (Ok arn, c2,
       [Print [Str "Creating IAM role: "; Str role_name];
        create_request role_name;
        Print [Str "Role "; Str role_name; Str " already exists, using existing role"];
        IamGetRole role_name] ++ t2)
    /\ attach_requests role_name t2 = required_policies
    /\ sleeps t2 = [].
Proof.
  intros Hrun Hserve.
  destruct (role_step_Ok _ _ _ _ _ Hrun) as (Hrole & _ & _).
  destruct (role_step_again role_name c1 arn Hrole Hserve)
    as (c2 & t2 & Hrun2 & Hreq & Hsl & _).
  exists c2, t2. split_and!; assumption.
Qed.

(** X12 after a call whose second attachment was denied. *)
Lemma rerun_returns_the_same_role_strict :
  exists c2 t2,
    create_sagemaker_execution_role
      (final (create_sagemaker_execution_role strict_iam_cloud)) =
      (Ok "arn:aws:iam::123456789012:role/SageMakerExecutionRole", c2,
       [Print [Str "Creating IAM role: "; Str "SageMakerExecutionRole"];
        create_request "SageMakerExecutionRole";
        Print [Str "Role "; Str "SageMakerExecutionRole";
               Str " already exists, using existing role"];
        IamGetRole "SageMakerExecutionRole"] ++ t2)
    /\ attach_requests "SageMakerExecutionRole" t2 = required_policies
    /\ sleeps t2 = [].
Proof.
  apply (rerun_returns_the_same_role "SageMakerExecutionRole" _ strict_iam_cloud _
           (trace (create_sagemaker_execution_role strict_iam_cloud))).
  - vm_compute. reflexivity.
  - intros n Hn. vm_compute in Hn.
    assert (Hfault : iam_fault (final (create_sagemaker_execution_role strict_iam_cloud))
                     = third_denied) by (vm_compute; reflexivity).
    rewrite Hfault. unfold third_denied.
    destruct (Nat.eqb_spec n 2) as [->|]; [lia|reflexivity].
Defined.

(** X13.  When IAM serves every request and the role has room for three
    more policies under the quota, the provisioning step returns the role's
    identifier and leaves the role with every required policy attached. *)
Theorem served_step_attaches_every_policy (role_name : string) (c : cloud) :
  fault_free c ->
  (length (default [] (attached <$> roles c !! role_name)) + length required_policies
     <= policy_quota c)%nat ->
  exists arn c1 t1 r1,
    create_sagemaker_execution_role_named role_name c = (Ok arn, c1, t1)
    /\ roles c1 !! role_name = Some r1
    /\ Arn r1 = arn
    /\ forall policy_arn, policy_arn ∈ required_policies -> policy_arn ∈ attached r1.
Proof.
  intros Hserve Hroom.
  destruct (roles c !! role_name) as [r|] eqn:Hr; simpl in Hroom.
  - assert (Hfirst := create_or_get_role_existing role_name c r
                        (Hserve _ (Nat.le_refl _)) (Hserve _ (Nat.le_succ_diag_r _)) Hr).
    destruct (attach_policies_effect role_name required_policies (tick_iam (tick_iam c)))
      as (c2 & t2 & Hloop & _ & _ & _ & _ & Hrole).
    destruct (Hrole r Hr) as (r' & Hr' & (Harn & _) & Hin & _).
    rewrite (role_step_parts _ _ _ _ _ Hfirst), Hloop. unfold final, trace. simpl.
    do 4 eexists. split_and!; [reflexivity|exact Hr'|exact Harn|].
    apply Hin; [|exact Hroom].
    intros n Hn. apply Hserve. simpl in Hn. lia.
  - assert (Hfirst := create_or_get_role_new role_name c (Hserve _ (Nat.le_refl _)) Hr).
    destruct (attach_policies_effect role_name required_policies
                (set_roles (tick_iam c)
                   (<[role_name := created_role c role_name]> (roles c))))
      as (c2 & t2 & Hloop & _ & _ & _ & _ & Hrole).
    destruct (Hrole (created_role c role_name)) as (r' & Hr' & (Harn & _) & Hin & _).
    { simpl. apply lookup_insert_eq. }
    rewrite (role_step_parts _ _ _ _ _ Hfirst), Hloop. unfold final, trace. simpl.
    do 4 eexists. split_and!; [reflexivity|exact Hr'|exact Harn|].
    apply Hin; [|exact Hroom].
    intros n Hn. apply Hserve. simpl in Hn. lia.
Qed.

(** X13 on an account without roles and with room for ten policies. *)
Lemma served_step_attaches_every_policy_fresh :
  exists arn c1 t1 r1,
    create_sagemaker_execution_role quiet_cloud = (Ok arn, c1, t1)
    /\ roles c1 !! "SageMakerExecutionRole" = Some r1
    /\ Arn r1 = arn
    /\ forall policy_arn, policy_arn ∈ required_policies -> policy_arn ∈ attached r1.
Proof.
  apply (served_step_attaches_every_policy "SageMakerExecutionRole" quiet_cloud).
  - intros n _. reflexivity.
  - vm_compute. lia.
Defined.

(* ===================================================================== *)
(** ** Further properties of the workflow *)
(* ===================================================================== *)

(** [main] when the role step raises. *)
Lemma main_role_raises c e c1 t1 :
  create_sagemaker_execution_role c = (Raise e, c1, t1) ->
  main c = (Raise e, c1, main_header ++ t1 ++ failure_report e).
Proof.
  intros Hrole.
  assert (Hsteps : main_steps c =
    (Raise e, c1, Print [Str "Step 1: Creating SageMaker execution role..."] :: t1)).
  { unfold main_steps. rewrite run_print.
    rewrite (run_bind_Raise _ _ _ _ _ _ Hrole). reflexivity. }
  unfold main. rewrite !run_print.
  rewrite (run_try_caught _ _ _ _ _ _ (main_failed e) Hsteps) by reflexivity.
  unfold main_failed, value, final, trace. simpl.
  rewrite <- ?app_assoc. reflexivity.
Qed.

Lemma test_endpoint_run pr c :
  test_endpoint pr c =
  (Ok tt, after_invocations (length test_texts) c, trace (test_endpoint pr c)).
Proof. unfold test_endpoint. rewrite test_endpoint_on_run. reflexivity. Qed.

(** [main] when the role step and the deployment go well. *)
Lemma main_succeeds c role_arn c1 t1 generated :
  create_sagemaker_execution_role c = (Ok role_arn, c1, t1) ->
  deploy_outcome c1 (deployments c1) (request_for role_arn) = Ok generated ->
  main c =
  (Ok {| endpoint_name := generated |},
   after_invocations (length test_texts) (tick_deploy c1 [generated]),
   main_header ++ t1 ++
   Print (step2_line role_arn) ::
   (deploy_prelude ++
    [SmDeploy (request_for role_arn);
     Print [Str "✓ Model deployed successfully!"];
     Print [Str "✓ Endpoint name: "; Str generated]]) ++
   Print [Str (nl +:+ "Step 3: Testing the deployed endpoint...")] ::
   trace (test_endpoint {| endpoint_name := generated |} (tick_deploy c1 [generated])) ++
   main_closing generated role_arn).
Proof.
  intros Hrole Hgen.
  assert (Hdeploy := deploy_huggingface_model_run role_arn c1).
  rewrite Hgen in Hdeploy.
  assert (Htest := test_endpoint_run {| endpoint_name := generated |}
                     (tick_deploy c1 [generated])).
  assert (Hsteps : main_steps c =
    (Ok {| endpoint_name := generated |},
     after_invocations (length test_texts) (tick_deploy c1 [generated]),
     Print [Str "Step 1: Creating SageMaker execution role..."] ::
     t1 ++
     Print (step2_line role_arn) ::
     (deploy_prelude ++
      [SmDeploy (request_for role_arn);
       Print [Str "✓ Model deployed successfully!"];
       Print [Str "✓ Endpoint name: "; Str generated]]) ++
     Print [Str (nl +:+ "Step 3: Testing the deployed endpoint...")] ::
     trace (test_endpoint {| endpoint_name := generated |} (tick_deploy c1 [generated])) ++
     main_closing generated role_arn)).
  { unfold main_steps. rewrite run_print.
    rewrite (run_bind_Ok _ _ _ _ _ _ Hrole), run_print.
    rewrite (run_bind_Ok _ _ _ _ _ _ Hdeploy), run_print.
    change (test_endpoint ?p;; ?k) with (test_endpoint p ≫= fun _ => k).
    rewrite (run_bind_Ok _ _ _ _ _ _ Htest). reflexivity. }
  unfold main. rewrite !run_print.
  rewrite (run_try_Ok _ _ _ _ _ _ Hsteps). reflexivity.
Qed.

Lemma role_step_stays_quiet c :
  deploy_requests (trace (create_sagemaker_execution_role c)) = []
  /\ invoke_requests (trace (create_sagemaker_execution_role c)) = [].
Proof.
  apply (concerns_role_requests "SageMakerExecutionRole").
  apply (role_step_effect "SageMakerExecutionRole" c).
Qed.

(** X14.  A run of [main] requests one deployment at most: none when the
    provisioning step raises, and otherwise exactly one, for the model whose
    role is the identifier the provisioning step returned. *)
Theorem main_deploys_once_with_its_role (c : cloud) :
  deploy_requests (trace (main c)) =
  match value (create_sagemaker_execution_role c) with
  | Ok role_arn => [request_for role_arn]
  | Raise _ => []
  end
  /\ forall role_arn, role (model (request_for role_arn)) = role_arn.
Proof.
  split; [|reflexivity].
  destruct (role_step_stays_quiet c) as [Hdep _].
  destruct (create_sagemaker_execution_role c) as [[[role_arn|e] c1] t1] eqn:Hrole;
    unfold trace, value in *; simpl in *.
  - destruct (deploy_outcome c1 (deployments c1) (request_for role_arn))
      as [generated|e] eqn:Hout.
    + rewrite (main_succeeds _ _ _ _ _ Hrole Hout). simpl.
      rewrite ?deploy_requests_app, ?Hdep. simpl.
      rewrite ?deploy_requests_app, ?Hdep. simpl.
      destruct (test_endpoint_on_requests {| endpoint_name := generated |} test_texts
                  (tick_deploy c1 [generated])) as [_ Htest].
      unfold test_endpoint, trace in *. rewrite Htest. reflexivity.
    + assert (Hdeploy : deploy_huggingface_model role_arn c1 =
        (Raise e, tick_deploy c1 [], deploy_prelude ++ [SmDeploy (request_for role_arn)]))
        by (rewrite deploy_huggingface_model_run, Hout; reflexivity).
      rewrite (main_deploy_raises _ _ _ _ _ _ _ Hrole Hdeploy). simpl.
      rewrite ?deploy_requests_app, ?Hdep. simpl.
      rewrite ?deploy_requests_app, ?Hdep. reflexivity.
  - rewrite (main_role_raises _ _ _ _ Hrole). simpl.
    rewrite ?deploy_requests_app, ?Hdep. reflexivity.
Qed.

Lemma role_step_iam_only c :
  iam_only c (final (create_sagemaker_execution_role c)).
Proof. apply (role_step_effect "SageMakerExecutionRole" c). Qed.

(** X15.  When the provisioning step raises, the workflow stops there:
    [main] prints its failure report and raises the same error, and so does
    the script; no deployment is requested, no endpoint is invoked, and the
    deployments and endpoints of the cloud are as they were. *)
Theorem provisioning_failure_aborts_the_workflow (c c1 : cloud) (e : exn)
    (t1 : list event) :
  create_sagemaker_execution_role c = (Raise e, c1, t1) ->
  main c = (Raise e, c1, main_header ++ t1 ++ failure_report e)
  /\ finbert c = main c
  /\ deploy_requests (trace (main c)) = []
  /\ invoke_requests (trace (main c)) = []
  /\ deployments (final (main c)) = deployments c
  /\ endpoints (final (main c)) = endpoints c
  /\ invocations (final (main c)) = invocations c.
Proof.
  intros Hrole.
  assert (Hmain := main_role_raises _ _ _ _ Hrole).
  pose proof (role_step_stays_quiet c) as [Hdep Hinv].
  pose proof (role_step_iam_only c) as Hframe.
  rewrite Hrole in Hdep, Hinv, Hframe. unfold trace, final in Hdep, Hinv, Hframe.
  simpl in Hdep, Hinv, Hframe. unfold iam_only in Hframe.
  split; [exact Hmain|]. split.
  { unfold finbert. rewrite (run_bind_Raise _ _ _ _ _ _ Hmain). symmetry. exact Hmain. }
  rewrite Hmain. unfold trace, final. simpl.
  rewrite deploy_requests_app, invoke_requests_app, Hdep, Hinv.
  split_and!; [reflexivity|reflexivity|tauto|tauto|tauto].
Qed.

(** X15 on an account whose first request is denied. *)
Lemma provisioning_failure_aborts_the_workflow_denied :
  value (main denied_cloud) = Raise (ClientError "AccessDenied")
  /\ value (finbert denied_cloud) = Raise (ClientError "AccessDenied")
  /\ printed (trace (main denied_cloud)) =
       printed main_header ++
       [[Str "Creating IAM role: "; Str "SageMakerExecutionRole"];
        [Str "❌ Deployment failed: "; ExnMsg (ClientError "AccessDenied")];
        [Str "Please check your AWS credentials and permissions."]]
  /\ deploy_requests (trace (main denied_cloud)) = [].
Proof.
  destruct (provisioning_failure_aborts_the_workflow denied_cloud (tick_iam denied_cloud)
              (ClientError "AccessDenied")
              [Print [Str "Creating IAM role: "; Str "SageMakerExecutionRole"];
               create_request "SageMakerExecutionRole"] eq_refl)
    as (Hmain & Hscript & Hdep & _).
  split_and!; [rewrite Hmain; reflexivity|rewrite Hscript, Hmain; reflexivity
              |rewrite Hmain; reflexivity|exact Hdep].
Defined.

(** X16.  When the provisioning step and the deployment go well, the
    workflow tests the endpoint it has just deployed: its invocations are
    the five test texts, in order, sent to the generated endpoint name.
    Whatever the endpoint answers, [main] returns the predictor, ends with
    the lines that give the endpoint name and the role identifier, and
    leaves the new endpoint in service; the script then prints the endpoint
    name once more. *)
Theorem successful_run_tests_the_new_endpoint (c c1 : cloud) (role_arn : string)
    (t1 : list event) (generated : string) :
  create_sagemaker_execution_role c = (Ok role_arn, c1, t1) ->
  deploy_outcome c1 (deployments c1) (request_for role_arn) = Ok generated ->
  value (main c) = Ok {| endpoint_name := generated |}
  /\ invoke_requests (trace (main c)) =
       map (invocation {| endpoint_name := generated |}) test_texts
  /\ (exists t, trace (main c) = t ++ main_closing generated role_arn)
  /\ endpoints (final (main c)) = endpoints c ++ [generated]
  /\ invocations (final (main c)) = (invocations c + length test_texts)%nat
  /\ finbert c =
       (Ok {| endpoint_name := generated |}, final (main c),
        trace (main c) ++ script_closing generated).
Proof.
  intros Hrole Hgen.
  assert (Hmain := main_succeeds _ _ _ _ _ Hrole Hgen).
  pose proof (role_step_stays_quiet c) as [_ Hinv].
  pose proof (role_step_iam_only c) as Hframe.
  rewrite Hrole in Hinv, Hframe. unfold trace, final in Hinv, Hframe.
  simpl in Hinv, Hframe. unfold iam_only in Hframe.
  destruct (test_endpoint_on_requests {| endpoint_name := generated |} test_texts
              (tick_deploy c1 [generated])) as [Htest _].
  fold (test_endpoint {| endpoint_name := generated |}) in Htest.
  destruct (after_invocations_frame (length test_texts) (tick_deploy c1 [generated]))
    as (_ & _ & Hendpoints & Hinvocations).
  split_and!.
  - rewrite Hmain. reflexivity.
  - rewrite Hmain. unfold trace at 1. simpl.
    rewrite !invoke_requests_app, Hinv. simpl.
    rewrite !invoke_requests_app, Htest. reflexivity.
  - rewrite Hmain. unfold trace at 1. simpl. eexists.
    rewrite !app_comm_cons, !app_assoc. reflexivity.
  - assert (Hfinal : final (main c) =
              after_invocations (length test_texts) (tick_deploy c1 [generated]))
      by (rewrite Hmain; reflexivity).
    rewrite Hfinal, Hendpoints. simpl. destruct_and!. congruence.
  - assert (Hfinal : final (main c) =
              after_invocations (length test_texts) (tick_deploy c1 [generated]))
      by (rewrite Hmain; reflexivity).
    rewrite Hfinal, Hinvocations. simpl. destruct_and!. congruence.
  - unfold finbert. rewrite (run_bind_Ok _ _ _ _ _ _ Hmain). rewrite Hmain.
    reflexivity.
Qed.

(** X16 on an account where everything goes well. *)
Lemma successful_run_tests_the_new_endpoint_example :
  value (main quiet_cloud) = Ok {| endpoint_name := generated_name |}
  /\ invoke_requests (trace (main quiet_cloud)) =
       map (invocation {| endpoint_name := generated_name |}) test_texts
  /\ endpoints (final (main quiet_cloud)) = [generated_name].
Proof.
  assert (Hrole : create_sagemaker_execution_role quiet_cloud =
            (Ok "arn:aws:iam::123456789012:role/SageMakerExecutionRole",
             final (create_sagemaker_execution_role quiet_cloud),
             trace (create_sagemaker_execution_role quiet_cloud)))
    by (vm_compute; reflexivity).
  destruct (successful_run_tests_the_new_endpoint quiet_cloud _ _ _ generated_name Hrole)
    as (Hvalue & Hinv & _ & Hendpoints & _); [vm_compute; reflexivity|].
  split_and!; [exact Hvalue|exact Hinv|exact Hendpoints].
Defined.
